(** * A shallow embedding of [parser.py] (python-tableau-parser)

    The development follows the source top-down:

    - [PyStr]   : the Python [str] methods the parser calls that work
                  character by character ([split], [strip(chars)],
                  [join], [in], [startswith]);
    - [StrTables] : the two methods that consult the Unicode character
                  database ([capitalize], [strip()]), taken as given;
    - [normalize_field_ref] : the reference normalizer (parser.py, 4-31);
    - [ET]      : the slice of [xml.etree.ElementTree] that the parser uses
                  ([get], [find], [findall], [findtext] on the handful of
                  paths occurring in the source);
    - [Dict]    : insertion-ordered dictionaries with string keys;
    - [parse_twb] : the extraction itself (parser.py, 34-228).

    Strings are Stdlib [string]s: the UTF-8 bytes of a Python [str].
    Splitting, stripping and searching with ASCII arguments, equality
    and the order of [sorted] are the same on the bytes as on the code
    points. *)

From Stdlib Require Import Strings.String Strings.Ascii.
From Stdlib Require Import Lists.List.
From Stdlib Require Import Arith.PeanoNat Bool.Bool.
From Stdlib Require Import Sorting.Sorted Sorting.Permutation.
From Stdlib Require Import Lia.
Import ListNotations.

Local Open Scope string_scope.
Local Open Scope list_scope.

(* ================================================================== *)
(** ** Python string methods *)
(* ================================================================== *)

Module PyStr.

(** [c in chars], for a one-character [c]. *)
Fixpoint mem_char (c : ascii) (chars : string) : bool :=
  match chars with
  | EmptyString => false
  | String d rest => Ascii.eqb c d || mem_char c rest
  end.

(** [s.lstrip(chars)]: drop the longest prefix made of characters of
    [chars]. *)
Fixpoint lstrip (chars s : string) : string :=
  match s with
  | EmptyString => EmptyString
  | String c rest => if mem_char c chars then lstrip chars rest else s
  end.

(** [s.rstrip(chars)]: drop the longest suffix made of characters of
    [chars]. *)
Fixpoint rstrip (chars s : string) : string :=
  match s with
  | EmptyString => EmptyString
  | String c rest =>
      match rstrip chars rest with
      | EmptyString => if mem_char c chars then EmptyString
                       else String c EmptyString
      | kept => String c kept
      end
  end.

(** [s.strip(chars)]: both ends, every character of the set, as many
    times as it occurs there. *)
Definition strip (chars s : string) : string :=
  rstrip chars (lstrip chars s).

(** [s.startswith(p)]. *)
Definition startswith (s p : string) : bool := String.prefix p s.

(** [s.endswith(p)]. *)
Fixpoint endswith (s p : string) : bool :=
  String.eqb s p ||
  match s with
  | EmptyString => false
  | String _ rest => endswith rest p
  end.

(** [sub in s]: [sub] occurs somewhere in [s]. *)
Fixpoint contains (sub s : string) : bool :=
  match s with
  | EmptyString => String.prefix sub s
  | String _ rest => String.prefix sub s || contains sub rest
  end.

(** [s.split(sep)] for a non-empty [sep]: the occurrences of [sep] are
    found from left to right and do not overlap.  The result is never
    empty; it is returned as (first piece, other pieces).  [skip] counts
    the characters of a separator just recognised that are still to be
    passed over.  (Python raises [ValueError] for an empty separator;
    the parser only calls [split] with literal separators.) *)
Fixpoint split_go (sep : string) (skip : nat) (s : string)
  : string * list string :=
  match s with
  | EmptyString => (EmptyString, [])
  | String c rest =>
      match skip with
      | S k => split_go sep k rest
      | O =>
          if String.prefix sep s then
            let (h, t) := split_go sep (String.length sep - 1) rest in
            (EmptyString, h :: t)
          else
            let (h, t) := split_go sep 0 rest in
            (String c h, t)
      end
  end.

Definition split (sep s : string) : list string :=
  let (h, t) := split_go sep 0 s in h :: t.

(** [sep.join(pieces)]. *)
Definition join (sep : string) (pieces : list string) : string :=
  String.concat sep pieces.

(** ASCII letters. *)
Definition upper_char (c : ascii) : ascii :=
  let n := nat_of_ascii c in
  if Nat.leb 97 n && Nat.leb n 122 then ascii_of_nat (n - 32) else c.

Definition lower_char (c : ascii) : ascii :=
  let n := nat_of_ascii c in
  if Nat.leb 65 n && Nat.leb n 90 then ascii_of_nat (n + 32) else c.

Fixpoint lower (s : string) : string :=
  match s with
  | EmptyString => EmptyString
  | String c rest => String (lower_char c) (lower rest)
  end.

(** What [s.capitalize()] gives when [s] is ASCII text: first character
    upper-cased, the others lower-cased.  (On other text the method
    follows the Unicode case mappings; see [StrTables].) *)
Definition ascii_capitalize (s : string) : string :=
  match s with
  | EmptyString => EmptyString
  | String c rest => String (upper_char c) (lower rest)
  end.

(** ASCII white space: TAB, LF, VT, FF, CR, FS, GS, RS, US and the
    blank. *)
Definition ascii_space (c : ascii) : bool :=
  let n := nat_of_ascii c in
  (Nat.leb 9 n && Nat.leb n 13) || (Nat.leb 28 n && Nat.leb n 32).

Fixpoint ascii_lstrip (s : string) : string :=
  match s with
  | EmptyString => EmptyString
  | String c rest => if ascii_space c then ascii_lstrip rest else s
  end.

Fixpoint ascii_rstrip (s : string) : string :=
  match s with
  | EmptyString => EmptyString
  | String c rest =>
      match ascii_rstrip rest with
      | EmptyString => if ascii_space c then EmptyString
                       else String c EmptyString
      | kept => String c kept
      end
  end.

(** What [s.strip()] gives when [s] is ASCII text.  (On other text the
    method also removes the Unicode white space; see [StrTables].) *)
Definition ascii_strip (s : string) : string := ascii_rstrip (ascii_lstrip s).

(** Truth value of a string: non-empty. *)
Definition nonempty (s : string) : bool :=
  match s with EmptyString => false | String _ _ => true end.

End PyStr.

(* ================================================================== *)
(** ** The reference normalizer (parser.py, lines 4-31) *)
(* ================================================================== *)

(** The body of the [for part in parts] loop up to the [append]: the
    name kept for one segment. *)
Definition clean_segment (part : string) : string :=
  let clean_part := PyStr.strip "[]" part in
  if PyStr.contains ":" clean_part then
    let sub_parts := PyStr.split ":" clean_part in
    if Nat.leb 2 (List.length sub_parts)
    then nth 1 sub_parts clean_part
    else clean_part
  else clean_part.

Definition wrap (name : string) : string := "[" ++ name ++ "]".

(** The callers pass a non-empty string (each call is guarded by the
    truth value of its argument); on the empty string, as on [None], the
    argument itself is returned. *)
Definition normalize_field_ref (field_ref : string) : string :=
  if PyStr.nonempty field_ref then
    let parts := PyStr.split "].[" field_ref in
    let normalized_parts := map (fun part => wrap (clean_segment part)) parts in
    PyStr.join "." normalized_parts
  else field_ref.


(* ================================================================== *)
(** ** The string methods that consult the Unicode tables *)
(* ================================================================== *)

(** [str.capitalize] and [str.strip()] depend on the Unicode character
    database of the interpreter, which is no part of the parser: they
    are taken as given, as functions on strings. *)
Class StrTables : Type := mkStrTables
  { capitalize : string -> string;
    strip_ws : string -> string }.

(** The two methods on ASCII text, where they need no table.  The
    sample documents are ASCII text and are evaluated with these. *)
Definition ascii_tables : StrTables :=
  {| capitalize := PyStr.ascii_capitalize;
     strip_ws := PyStr.ascii_strip |}.

(* ================================================================== *)
(** ** Python values around strings *)
(* ================================================================== *)

(** An attribute or text that may be [None]. *)
Definition truthy (o : option string) : bool :=
  match o with
  | Some s => PyStr.nonempty s
  | None => false
  end.

(** [a or b], both possibly [None]. *)
Definition py_or (a b : option string) : option string :=
  if truthy a then a else b.

(** [a or d], where [d] is a string. *)
Definition or_str (a : option string) (d : string) : string :=
  match a with
  | Some s => if PyStr.nonempty s then s else d
  | None => d
  end.

(** [o == lit]. *)
Definition opt_eqb (o : option string) (lit : string) : bool :=
  match o with
  | Some s => String.eqb s lit
  | None => false
  end.

(* ================================================================== *)
(** ** Insertion-ordered dictionaries with string keys *)
(* ================================================================== *)

Module Dict.

Definition t (V : Type) : Type := list (string * V).

Fixpoint lookup {V} (k : string) (d : t V) : option V :=
  match d with
  | [] => None
  | (k', v) :: rest => if String.eqb k k' then Some v else lookup k rest
  end.

(** [d[k] = v]: an existing key keeps its place, a new one goes last. *)
Fixpoint set {V} (k : string) (v : V) (d : t V) : t V :=
  match d with
  | [] => [(k, v)]
  | (k', v') :: rest =>
      if String.eqb k k' then (k', v) :: rest
      else (k', v') :: set k v rest
  end.

(** [d.setdefault(k, dflt)] read side: the value now under [k]. *)
Definition get_default {V} (k : string) (dflt : V) (d : t V) : V :=
  match lookup k d with Some v => v | None => dflt end.

End Dict.

(** A Python [set] of strings: a list kept free of duplicates.  Its
    iteration order is never observed by the parser, which sorts. *)
Module PySet.

Definition t : Type := list string.

Definition mem (x : string) (s : t) : bool := existsb (String.eqb x) s.

Definition add (s : t) (x : string) : t :=
  if mem x s then s else s ++ [x].

(** [s.update(xs)]. *)
Definition update (s : t) (xs : list string) : t := fold_left add xs s.

End PySet.

(** [sorted(xs)] on strings: code-point order. *)
Fixpoint insert_sorted (x : string) (xs : list string) : list string :=
  match xs with
  | [] => [x]
  | y :: rest => if String.leb x y then x :: xs else y :: insert_sorted x rest
  end.

Fixpoint sorted (xs : list string) : list string :=
  match xs with
  | [] => []
  | x :: rest => insert_sorted x (sorted rest)
  end.

(* ================================================================== *)
(** ** The ElementTree interface used by the parser *)
(* ================================================================== *)

#[warnings="-register-all"]
Inductive Element : Type :=
| mkElement (tag : string) (attrib : Dict.t string) (text : option string)
            (children : list Element).

Module ET.

Definition tag (e : Element) : string :=
  match e with mkElement t _ _ _ => t end.

Definition attrib (e : Element) : Dict.t string :=
  match e with mkElement _ a _ _ => a end.

Definition text (e : Element) : option string :=
  match e with mkElement _ _ x _ => x end.

Definition children (e : Element) : list Element :=
  match e with mkElement _ _ _ cs => cs end.

(** [e.get(key)]. *)
Definition get (e : Element) (key : string) : option string :=
  Dict.lookup key (attrib e).

(** [e.iter()]: the element and everything below it, in document
    order. *)
Fixpoint iter (e : Element) : list Element :=
  match e with
  | mkElement _ _ _ cs => e :: flat_map iter cs
  end.

(** Everything strictly below [e], in document order. *)
Definition descendants (e : Element) : list Element :=
  flat_map iter (children e).

Definition has_tag (t : string) (e : Element) : bool := String.eqb (tag e) t.

(** [e.findall(".//t")]. *)
Definition findall_desc (t : string) (e : Element) : list Element :=
  filter (has_tag t) (descendants e).

(** [e.find(".//t")]. *)
Definition find_desc (t : string) (e : Element) : option Element :=
  hd_error (findall_desc t e).

(** [e.findall("t")]. *)
Definition findall_child (t : string) (e : Element) : list Element :=
  filter (has_tag t) (children e).

(** [e.find("t")]. *)
Definition find_child (t : string) (e : Element) : option Element :=
  hd_error (findall_child t e).

(** [e.findall(".//p/c")]: the [c] children of the [p] descendants. *)
Definition findall_desc_child (p c : string) (e : Element) : list Element :=
  flat_map (findall_child c) (findall_desc p e).

(** The predicate [[@key='value']]. *)
Definition attr_is (key value : string) (e : Element) : bool :=
  opt_eqb (get e key) value.

(** [e.findtext("t")]: [None] without such a child, else its text, the
    empty string standing for an absent text. *)
Definition findtext (t : string) (e : Element) : option string :=
  match find_child t e with
  | Some c => Some (match text c with Some x => x | None => "" end)
  | None => None
  end.

End ET.

(* ================================================================== *)
(** ** The result of the extraction *)
(* ================================================================== *)

Record Connection : Type := mkConnection
  { conn_class : string;
    conn_server : option string;
    conn_dbname : option string }.

Record Field : Type := mkField
  { f_tech_name : string;
    f_name : string;
    f_role : string;
    f_datatype : string;
    f_formula : string;
    f_usage : string }.

Record DataSource : Type := mkDataSource
  { ds_name : string;
    ds_tech_name : option string;
    ds_connections : list Connection;
    ds_queries : list string;
    ds_fields : list Field }.

Record Data : Type := mkData
  { datasources : list DataSource;
    worksheets : list string;
    dashboards : list string;
    parameters : list string }.

(* ================================================================== *)
(** ** 1. Field usage in worksheets (parser.py, lines 50-87) *)
(* ================================================================== *)

(** [usage_map]: canonical id -> worksheet name -> the roles, one entry
    per registration (a Python list). *)
Definition UsageMap : Type := Dict.t (Dict.t (list string)).

(** [usage_map.setdefault(norm_field, {}).setdefault(ws_name, []).append(role)] *)
Definition register (usage_map : UsageMap) (norm_field ws_name role : string)
  : UsageMap :=
  let per_ws := Dict.get_default norm_field [] usage_map in
  let roles := Dict.get_default ws_name [] per_ws in
  Dict.set norm_field (Dict.set ws_name (roles ++ [role]) per_ws) usage_map.

(** One iteration of [for field in shelf.text.split('/')]. *)
Definition register_token (ws_name role : string) (usage_map : UsageMap)
  (field : string) : UsageMap :=
  let field := PyStr.strip "()" field in
  if PyStr.nonempty field
  then register usage_map (normalize_field_ref field) ws_name role
  else usage_map.

(** The guard [node is not None and node.text], then the loop over the
    tokens of the shelf. *)
Definition register_shelf (shelf : option Element) (ws_name role : string)
  (usage_map : UsageMap) : UsageMap :=
  match shelf with
  | Some node =>
      match ET.text node with
      | Some txt =>
          if PyStr.nonempty txt
          then fold_left (register_token ws_name role)
                         (PyStr.split "/" txt) usage_map
          else usage_map
      | None => usage_map
      end
  | None => usage_map
  end.

(** One iteration of [for filter_node in ws.findall(".//filter")]. *)
Definition register_filter (ws_name : string) (usage_map : UsageMap)
  (filter_node : Element) : UsageMap :=
  match ET.get filter_node "column" with
  | Some col_name =>
      if PyStr.nonempty col_name
      then register usage_map (normalize_field_ref col_name) ws_name "Filter"
      else usage_map
  | None => usage_map
  end.

(** One iteration of [for slice_node in ws.findall(".//slices/column")]. *)
Definition register_slice (ws_name : string) (usage_map : UsageMap)
  (slice_node : Element) : UsageMap :=
  match ET.text slice_node with
  | Some txt =>
      if PyStr.nonempty txt
      then register usage_map (normalize_field_ref txt) ws_name "Filter"
      else usage_map
  | None => usage_map
  end.

(** The body of the worksheet loop once the name is known. *)
Definition worksheet_usage (ws : Element) (ws_name : string)
  (usage_map : UsageMap) : UsageMap :=
  let rows := ET.find_desc "rows" ws in
  let cols := ET.find_desc "column" ws in
  let usage_map := register_shelf rows ws_name "Row" usage_map in
  let usage_map := register_shelf cols ws_name "Column" usage_map in
  let usage_map :=
    fold_left (register_filter ws_name) (ET.findall_desc "filter" ws) usage_map in
  fold_left (register_slice ws_name)
            (ET.findall_desc_child "slices" "column" ws) usage_map.

(** One iteration of [for ws in root.findall(".//worksheet")]; the state
    is ([data["worksheets"]], [usage_map]). *)
Definition scan_worksheet (st : list string * UsageMap) (ws : Element)
  : list string * UsageMap :=
  match ET.get ws "name" with
  | Some ws_name =>
      if PyStr.nonempty ws_name
      then (fst st ++ [ws_name], worksheet_usage ws ws_name (snd st))
      else st
  | None => st
  end.

Definition scan_worksheets (root : Element) : list string * UsageMap :=
  fold_left scan_worksheet (ET.findall_desc "worksheet" root) ([], []).

Definition build_usage_map (root : Element) : UsageMap :=
  snd (scan_worksheets root).

(* ================================================================== *)
(** ** 2. Dashboards (parser.py, lines 89-93) *)
(* ================================================================== *)

Definition scan_dashboard (names : list string) (db : Element) : list string :=
  match ET.get db "name" with
  | Some name => if PyStr.nonempty name then names ++ [name] else names
  | None => names
  end.

Definition scan_dashboards (root : Element) : list string :=
  fold_left scan_dashboard (ET.findall_desc "dashboard" root) [].

(* ================================================================== *)
(** ** 3. Data sources and parameters (parser.py, lines 95-223) *)
(* ================================================================== *)

Section DataSources.

Context {tables : StrTables}.

(** The [Parameters] branch: one iteration of
    [for col in ds.findall(".//column")]. *)
Definition add_parameter (params : list string) (col : Element) : list string :=
  match py_or (ET.get col "caption") (ET.get col "name") with
  | Some p_name =>
      if PyStr.nonempty p_name
      then params ++ [PyStr.strip "[]" p_name]
      else params
  | None => params
  end.

(** The test of line 100. *)
Definition is_parameters (ds : Element) : bool :=
  let caption := py_or (ET.get ds "caption") (ET.get ds "name") in
  opt_eqb caption "Parameters"
  || match ET.get ds "name" with
     | Some n => PyStr.nonempty n && PyStr.startswith n "Parameters"
     | None => false
     end.

(** Connections: one iteration of [for conn in ds.findall(".//connection")]. *)
Definition add_connection (conns : list Connection) (conn : Element)
  : list Connection :=
  match ET.get conn "class" with
  | Some conn_class =>
      if PyStr.nonempty conn_class && negb (String.eqb conn_class "federated")
      then conns ++ [mkConnection conn_class (ET.get conn "server")
                                  (ET.get conn "dbname")]
      else conns
  | None => conns
  end.

(** Custom SQL: one iteration of [for rel in ds.findall(".//*[@type='text']")]. *)
Definition add_query (found_queries : list string) (rel : Element)
  : list string :=
  let tag := ET.tag rel in
  if PyStr.contains "ObjectModelEncapsulateLegacy" tag
     && negb (PyStr.contains ".true" tag)
  then found_queries
  else if PyStr.endswith tag "relation" || PyStr.contains "relation" tag then
    match ET.text rel with
    | Some sql =>
        if PyStr.nonempty sql && PyStr.nonempty (strip_ws sql) then
          let query_text := strip_ws sql in
          if existsb (String.eqb query_text) found_queries
          then found_queries
          else found_queries ++ [query_text]
        else found_queries
    | None => found_queries
    end
  else found_queries.

(** Field discovery: one iteration of the metadata-record loop. *)
Definition add_metadata_record (fields_by_tech : Dict.t Field) (mr : Element)
  : Dict.t Field :=
  match ET.findtext "local-name" mr with
  | Some local_name =>
      if PyStr.nonempty local_name then
        Dict.set local_name
          {| f_tech_name := local_name;
             f_name := or_str (ET.findtext "remote-name" mr)
                              (PyStr.strip "[]" local_name);
             f_role := "";
             f_datatype := or_str (ET.findtext "local-type" mr) "";
             f_formula := "";
             f_usage := "" |}
          fields_by_tech
      else fields_by_tech
  | None => fields_by_tech
  end.

Definition metadata_records (ds : Element) : list Element :=
  filter (ET.attr_is "class" "column")
         (ET.findall_desc_child "metadata-records" "metadata-record" ds).

(** The updates of lines 181-195 on the record of the column. *)
Definition enrich_field (col : Element) (field_obj : Field) : Field :=
  let field_obj :=
    match ET.get col "caption" with
    | Some c => if PyStr.nonempty c
                then {| f_tech_name := f_tech_name field_obj;
                        f_name := c;
                        f_role := f_role field_obj;
                        f_datatype := f_datatype field_obj;
                        f_formula := f_formula field_obj;
                        f_usage := f_usage field_obj |}
                else field_obj
    | None => field_obj
    end in
  let field_obj :=
    match ET.get col "role" with
    | Some r => if PyStr.nonempty r
                then {| f_tech_name := f_tech_name field_obj;
                        f_name := f_name field_obj;
                        f_role := capitalize r;
                        f_datatype := f_datatype field_obj;
                        f_formula := f_formula field_obj;
                        f_usage := f_usage field_obj |}
                else field_obj
    | None => field_obj
    end in
  let field_obj :=
    match ET.get col "datatype" with
    | Some d => if PyStr.nonempty d
                then {| f_tech_name := f_tech_name field_obj;
                        f_name := f_name field_obj;
                        f_role := f_role field_obj;
                        f_datatype := capitalize d;
                        f_formula := f_formula field_obj;
                        f_usage := f_usage field_obj |}
                else field_obj
    | None => field_obj
    end in
  match ET.find_child "calculation" col with
  | Some calc =>
      {| f_tech_name := f_tech_name field_obj;
         f_name := f_name field_obj;
         f_role := "Calculation";
         f_datatype := f_datatype field_obj;
         f_formula := or_str (ET.get calc "formula") "";
         f_usage := f_usage field_obj |}
  | None => field_obj
  end.

(** Field enrichment: one iteration of [for col in ds.findall(".//column")]. *)
Definition add_column (fields_by_tech : Dict.t Field) (col : Element)
  : Dict.t Field :=
  match ET.get col "name" with
  | Some name_attr =>
      if PyStr.nonempty name_attr then
        let field_obj :=
          match Dict.lookup name_attr fields_by_tech with
          | Some f => f
          | None =>
              {| f_tech_name := name_attr;
                 f_name := or_str (ET.get col "caption")
                                  (PyStr.strip "[]" name_attr);
                 f_role := "";
                 f_datatype := "";
                 f_formula := "";
                 f_usage := "" |}
          end in
        Dict.set name_attr (enrich_field col field_obj) fields_by_tech
      else fields_by_tech
  | None => fields_by_tech
  end.

(** [fields_by_tech] after both passes. *)
Definition discover_fields (ds : Element) : Dict.t Field :=
  let fields_by_tech := fold_left add_metadata_record (metadata_records ds) [] in
  fold_left add_column (ET.findall_desc "column" ds) fields_by_tech.

(** [tech_names_to_check] (lines 202-204). *)
Definition tech_names_to_check (ds_tech_prefix tech_name : string)
  : list string :=
  if PyStr.nonempty ds_tech_prefix
     && negb (PyStr.startswith tech_name ("[" ++ ds_tech_prefix ++ "]"))
  then [tech_name; ("[" ++ ds_tech_prefix ++ "]." ++ tech_name)%string]
  else [tech_name].

(** [usage_info.setdefault(ws_name, set()).update(roles)] *)
Definition merge_roles (usage_info : Dict.t PySet.t)
  (item : string * list string) : Dict.t PySet.t :=
  let (ws_name, roles) := item in
  Dict.set ws_name
    (PySet.update (Dict.get_default ws_name [] usage_info) roles)
    usage_info.

(** One iteration of [for tn in tech_names_to_check]. *)
Definition merge_candidate (usage_map : UsageMap)
  (usage_info : Dict.t PySet.t) (tn : string) : Dict.t PySet.t :=
  match Dict.lookup tn usage_map with
  | Some per_ws => fold_left merge_roles per_ws usage_info
  | None => usage_info
  end.

Definition collect_usage (usage_map : UsageMap) (names : list string)
  : Dict.t PySet.t :=
  fold_left (merge_candidate usage_map) names [].

(** One element of [usage_str_parts]. *)
Definition usage_part (item : string * PySet.t) : string :=
  let (ws_name, roles) := item in
  ws_name ++ " (" ++ PyStr.join "/" (sorted roles) ++ ")".

(** Lines 212-217. *)
Definition render_usage (usage_info : Dict.t PySet.t) : string :=
  let usage_str_parts := map usage_part usage_info in
  match usage_str_parts with
  | [] => "Not Used"
  | _ => PyStr.join ", " usage_str_parts
  end.

Definition field_usage (usage_map : UsageMap) (ds_tech_prefix tech_name : string)
  : string :=
  render_usage
    (collect_usage usage_map (tech_names_to_check ds_tech_prefix tech_name)).

(** One iteration of [for tech_name, field_obj in fields_by_tech.items()]. *)
Definition finalize_field (usage_map : UsageMap) (ds_tech_prefix : string)
  (item : string * Field) : Field :=
  let (tech_name, field_obj) := item in
  {| f_tech_name := f_tech_name field_obj;
     f_name := f_name field_obj;
     f_role := f_role field_obj;
     f_datatype := f_datatype field_obj;
     f_formula := f_formula field_obj;
     f_usage := field_usage usage_map ds_tech_prefix tech_name |}.

(** Lines 110-221: [ds_info] of a data source that is kept. *)
Definition build_ds_info (usage_map : UsageMap) (ds : Element)
  (caption : string) : DataSource :=
  let ds_tech_prefix := or_str (ET.get ds "name") "" in
  {| ds_name := caption;
     ds_tech_name := ET.get ds "name";
     ds_connections :=
       fold_left add_connection (ET.findall_desc "connection" ds) [];
     ds_queries :=
       fold_left add_query
                 (filter (ET.attr_is "type" "text") (ET.descendants ds)) [];
     ds_fields :=
       map (finalize_field usage_map ds_tech_prefix) (discover_fields ds) |}.

Definition is_nil {A} (l : list A) : bool :=
  match l with [] => true | _ => false end.

(** One iteration of [for ds in root.findall(".//datasource")]. *)
Definition scan_datasource (usage_map : UsageMap) (data : Data) (ds : Element)
  : Data :=
  let caption := py_or (ET.get ds "caption") (ET.get ds "name") in
  if is_parameters ds then
    {| datasources := datasources data;
       worksheets := worksheets data;
       dashboards := dashboards data;
       parameters :=
         fold_left add_parameter (ET.findall_desc "column" ds)
                   (parameters data) |}
  else
    match caption with
    | Some cap =>
        if PyStr.nonempty cap then
          let ds_info := build_ds_info usage_map ds cap in
          if is_nil (ds_connections ds_info) && is_nil (ds_queries ds_info)
             && is_nil (ds_fields ds_info)
          then data
          else {| datasources := datasources data ++ [ds_info];
                  worksheets := worksheets data;
                  dashboards := dashboards data;
                  parameters := parameters data |}
        else data
    | None => data
    end.

(* ================================================================== *)
(** ** [parse_twb] (parser.py, lines 34-228) *)
(* ================================================================== *)

(** Lines 41-225: what the [try] block computes from the root. *)
Definition extract (root : Element) : Data :=
  let (ws_names, usage_map) := scan_worksheets root in
  let data := {| datasources := [];
                 worksheets := ws_names;
                 dashboards := scan_dashboards root;
                 parameters := [] |} in
  fold_left (scan_datasource usage_map) (ET.findall_desc "datasource" root) data.

End DataSources.

(** An instance of a subclass of [Exception], with its [str()]:
    [OSError] for a file that cannot be read, [ParseError] for text that
    is not XML, [UnicodeEncodeError] for text the output stream cannot
    encode, or any other. *)
Record PyException : Type := mkException
  { exc_class : string;
    exc_str : string }.

(** How a call ends: with a value, or with an exception on its way up. *)
Inductive outcome (A : Type) : Type :=
| Returned (a : A)
| Raised (e : PyException).
Arguments Returned {A} a.
Arguments Raised {A} e.

Definition bind {A B} (m : outcome A) (k : A -> outcome B) : outcome B :=
  match m with
  | Returned a => k a
  | Raised e => Raised e
  end.

(** [try: body except Exception as e: handler e].  What the handler
    raises is not caught. *)
Definition try_except {A} (body : outcome A) (handler : PyException -> outcome A)
  : outcome A :=
  match body with
  | Returned a => Returned a
  | Raised e => handler e
  end.

Section ParseTwb.

Context {tables : StrTables}.

(** [ET.parse(path).getroot()], the document loader, and [print], the
    write to the standard output: two collaborators of the parser, each
    of which may raise. *)
Variable ET_parse : string -> outcome Element.
Variable py_print : string -> outcome unit.

(** The [try] block: load, then extract. *)
Definition parse_twb_try (twb_path : string) : outcome (option Data) :=
  bind (ET_parse twb_path) (fun root => Returned (Some (extract root))).

(** The line of the handler. *)
Definition error_line (twb_path : string) (e : PyException) : string :=
  "Error parsing .twb file '" ++ twb_path ++ "': " ++ exc_str e.

(** The [except] block (lines 226-228): print, then return [None]. *)
Definition parse_twb_except (twb_path : string) (e : PyException)
  : outcome (option Data) :=
  bind (py_print (error_line twb_path e)) (fun _ => Returned None).

Definition parse_twb (twb_path : string) : outcome (option Data) :=
  try_except (parse_twb_try twb_path) (parse_twb_except twb_path).

End ParseTwb.

(* ================================================================== *)
(** * Vocabulary of the statements *)
(* ================================================================== *)

(** Every character of [s] is one of [chars]. *)
Fixpoint all_in (chars s : string) : bool :=
  match s with
  | EmptyString => true
  | String c rest => PyStr.mem_char c chars && all_in chars rest
  end.

Definition first_char (s : string) : option ascii :=
  match s with
  | EmptyString => None
  | String c _ => Some c
  end.

Fixpoint last_char (s : string) : option ascii :=
  match s with
  | EmptyString => None
  | String c EmptyString => Some c
  | String _ rest => last_char rest
  end.

(** The character, if there is one, is none of [chars]. *)
Definition not_in (chars : string) (c : option ascii) : bool :=
  match c with
  | Some c => negb (PyStr.mem_char c chars)
  | None => true
  end.

(** The pieces, with [c] put before the first one. *)
Definition cons_head (c : ascii) (pieces : list string) : list string :=
  match pieces with
  | [] => [String c ""]
  | h :: t => String c h :: t
  end.

(** The pieces, with [s] put before the first one. *)
Definition prepend (s : string) (pieces : list string) : list string :=
  match pieces with
  | [] => [s]
  | h :: t => (s ++ h)%string :: t
  end.

(** The pieces of a normalized id from the second piece on: the names,
    the last one with the closing bracket of the id. *)
Fixpoint close_last (names : list string) : list string :=
  match names with
  | [] => []
  | [n] => [(n ++ "]")%string]
  | n :: rest => n :: close_last rest
  end.

(** Every record is stored under its technical name. *)
Definition keyed (d : Dict.t Field) : Prop :=
  Forall (fun item => f_tech_name (snd item) = fst item) d.

(** The colon rule on a debracketed segment: with two parts or more the
    part at index 1, otherwise the segment. *)
Definition kept_name (core : string) : string :=
  match PyStr.split ":" core with
  | _ :: middle :: _ => middle
  | _ => core
  end.

(** The segment rule in the words of the specification: split the
    debracketed segment on [":"]; with two parts or more keep the part
    at index 1, otherwise keep the segment. *)
Definition segment_name_spec (segment : string) : string :=
  let debracketed := PyStr.strip "[]" segment in
  match PyStr.split ":" debracketed with
  | _ :: middle :: _ => middle
  | _ => debracketed
  end.

(** [s] without its last character when that is [c]. *)
Fixpoint drop_last_if (c : ascii) (s : string) : string :=
  match s with
  | EmptyString => EmptyString
  | String d EmptyString => if Ascii.eqb d c then EmptyString else s
  | String d rest => String d (drop_last_if c rest)
  end.

(** Bracket stripping in the words of the specification: one leading
    ["["] and one trailing ["]"], where present. *)
Definition strip_outer_pair_spec (segment : string) : string :=
  let opened :=
    match segment with
    | String "[" rest => rest
    | _ => segment
    end in
  drop_last_if "]" opened.

(** [role] is among the roles that [usage_map] holds for the canonical
    id [field] under worksheet [ws_name]. *)
Definition registered (usage_map : UsageMap) (field ws_name role : string)
  : Prop :=
  exists per_ws roles,
    Dict.lookup field usage_map = Some per_ws /\
    Dict.lookup ws_name per_ws = Some roles /\
    In role roles.

(** The roles [usage_map] holds for [field] under [ws_name], as the
    list they are stored in. *)
Definition roles_of (usage_map : UsageMap) (field ws_name : string)
  : list string :=
  Dict.get_default ws_name [] (Dict.get_default field [] usage_map).

(** The rendering of a usage in the words of the specification: an entry
    for each worksheet with at least one role, the roles in sorted order
    joined by ["/"], the entries joined by [", "]; ["Not Used"] without
    such a worksheet. *)
Definition usage_entry_spec (ws_name : string) (roles_in_order : list string)
  : string :=
  (ws_name ++ " (" ++ PyStr.join "/" roles_in_order ++ ")")%string.

Definition render_usage_spec (usage_info : Dict.t PySet.t) : string :=
  let used := filter (fun item => negb (is_nil (snd item))) usage_info in
  match used with
  | [] => "Not Used"
  | _ => PyStr.join ", "
           (map (fun item => usage_entry_spec (fst item) (sorted (snd item)))
                used)
  end.

(** Code-point order on strings, the order of Python's [sorted]. *)
Definition str_le (a b : string) : Prop := String.leb a b = true.

(** Every worksheet entry of the usage map holds at least one role. *)
Definition roles_nonempty (usage_map : UsageMap) : Prop :=
  Forall (fun per_field =>
            Forall (fun per_ws => snd per_ws <> @nil string) (snd per_field))
         usage_map.

(** The column definition carries the technical name [name]. *)
Definition named (name : string) (col : Element) : bool :=
  opt_eqb (ET.get col "name") name.

(** The parameter names a data source provides: for each of its
    columns, the caption, or else the name, without its outer
    brackets. *)
Definition parameter_names (ds : Element) : list string :=
  flat_map
    (fun col =>
       match py_or (ET.get col "caption") (ET.get col "name") with
       | Some p_name =>
           if PyStr.nonempty p_name then [PyStr.strip "[]" p_name] else []
       | None => []
       end)
    (ET.findall_desc "column" ds).

(** The role tags the parser registers. *)
Definition role_tags : list string := ["Row"; "Column"; "Filter"].

(** Where the entries of a usage map come from: each key is the
    normalized form of a non-empty reference, each worksheet is one of
    [names], each role is one of the role tags. *)
Definition usage_from (names : list string) (usage_map : UsageMap) : Prop :=
  Forall
    (fun per_field =>
       (exists raw, PyStr.nonempty raw = true /\
                    fst per_field = normalize_field_ref raw) /\
       Forall (fun per_ws =>
                 In (fst per_ws) names /\
                 Forall (fun r => In r role_tags) (snd per_ws))
              (snd per_field))
    usage_map.

(** The non-empty [name] attributes of the elements, in their order. *)
Definition names_of (elements : list Element) : list string :=
  flat_map
    (fun e =>
       match ET.get e "name" with
       | Some n => if PyStr.nonempty n then [n] else []
       | None => []
       end)
    elements.

(** No candidate name is a key of the usage map. *)
Definition no_candidate (usage_map : UsageMap) (names : list string) : bool :=
  forallb (fun tn => match Dict.lookup tn usage_map with
                     | Some _ => false
                     | None => true
                     end) names.

(** The last non-empty [datatype] attribute among the column
    definitions that carry the technical name [name]. *)
Definition declared_datatype (name : string) (cols : list Element)
  : option string :=
  fold_left
    (fun acc col =>
       if named name col then
         match ET.get col "datatype" with
         | Some d => if PyStr.nonempty d then Some d else acc
         | None => acc
         end
       else acc)
    cols None.

(** The column definition carries the technical name [name] and a
    calculation child or a non-empty role attribute. *)
Definition overrides (name : string) (col : Element) : bool :=
  named name col
  && (match ET.find_child "calculation" col with
      | Some _ => true
      | None => false
      end
      || truthy (ET.get col "role")).

(** The metadata record describes the local name [name]. *)
Definition describes (name : string) (mr : Element) : bool :=
  opt_eqb (ET.findtext "local-name" mr) name.

(** The usage collected for a field holds [role] under [ws_name]. *)
Definition collected (usage_info : Dict.t PySet.t) (ws_name role : string)
  : Prop :=
  exists roles, Dict.lookup ws_name usage_info = Some roles /\ In role roles.

(* ================================================================== *)
(** * Sample documents *)
(* ================================================================== *)

Module Samples.

(** A data source with a metadata record of local type [string] for
    [[Margin]] and a column definition of the same name that declares
    the datatype [real] and holds a calculation. *)
Definition margin_datasource : Element :=
  mkElement "datasource" [("caption", "Orders"); ("name", "orders")] None
    [mkElement "connection" [("class", "federated")] None
       [mkElement "metadata-records" [] None
          [mkElement "metadata-record" [("class", "column")] None
             [mkElement "local-name" [] (Some "[Margin]") [];
              mkElement "local-type" [] (Some "string") []]]];
     mkElement "column" [("name", "[Margin]"); ("datatype", "real");
                         ("role", "measure")] None
       [mkElement "calculation" [("class", "tableau");
                                 ("formula", "[Profit]/[Sales]")] None []]].

(** The same without the datatype attribute on the column. *)
Definition margin_column_untyped : Element :=
  mkElement "column" [("name", "[Margin]"); ("role", "measure")] None
    [mkElement "calculation" [("class", "tableau");
                              ("formula", "[Profit]/[Sales]")] None []].

Definition margin_datasource_untyped : Element :=
  mkElement "datasource" [("caption", "Orders"); ("name", "orders")] None
    [mkElement "connection" [("class", "federated")] None
       [mkElement "metadata-records" [] None
          [mkElement "metadata-record" [("class", "column")] None
             [mkElement "local-name" [] (Some "[Margin]") [];
              mkElement "local-type" [] (Some "string") []]]];
     margin_column_untyped].

(** The first data source with a second column definition of the same
    name, after the first and without a calculation. *)
Definition margin_datasource_redefined : Element :=
  mkElement "datasource" [("caption", "Orders"); ("name", "orders")] None
    (ET.children margin_datasource
     ++ [mkElement "column" [("name", "[Margin]"); ("role", "dimension")]
                   None []]).

(** The data source of the field [[Margin]] with two column definitions
    of that name: the first declares a datatype and a role, the second
    holds the calculation. *)
Definition margin_column_typed : Element :=
  mkElement "column" [("name", "[Margin]"); ("datatype", "integer");
                      ("role", "dimension")] None [].

Definition margin_datasource_retyped : Element :=
  mkElement "datasource" [("caption", "Orders"); ("name", "orders")] None
    [mkElement "connection" [("class", "federated")] None
       [mkElement "metadata-records" [] None
          [mkElement "metadata-record" [("class", "column")] None
             [mkElement "local-name" [] (Some "[Margin]") [];
              mkElement "local-type" [] (Some "string") []]]];
     margin_column_typed;
     margin_column_untyped].

(** A data source with a metadata record for [[Region]] and a column
    definition, with a caption, for [[Sales]]. *)
Definition region_record : Element :=
  mkElement "metadata-record" [("class", "column")] None
    [mkElement "remote-name" [] (Some "region") [];
     mkElement "local-name" [] (Some "[Region]") [];
     mkElement "local-type" [] (Some "string") []].

Definition sales_column : Element :=
  mkElement "column" [("caption", "Sales Amount"); ("name", "[Sales]");
                      ("role", "measure")] None [].

Definition region_datasource : Element :=
  mkElement "datasource" [("caption", "Orders"); ("name", "orders")] None
    [mkElement "connection" [("class", "federated")] None
       [mkElement "metadata-records" [] None [region_record]];
     sales_column].

(** A worksheet with a filter and a quick filter (slice). *)
Definition filter_node : Element :=
  mkElement "filter" [("class", "categorical");
                      ("column", "[orders].[none:Region:nk]")] None [].

Definition slice_node : Element :=
  mkElement "column" [] (Some "[orders].[none:Segment:nk]") [].

Definition filtered_worksheet : Element :=
  mkElement "worksheet" [("name", "Sheet2")] None
    [mkElement "table" [] None
       [mkElement "view" [] None
          [filter_node; mkElement "slices" [] None [slice_node]];
        mkElement "rows" [] (Some "[orders].[sum:Sales:qk]") []]].

Definition filtered_workbook : Element :=
  mkElement "workbook" [] None
    [mkElement "worksheets" [] None [filtered_worksheet]].

(** The [Parameters] data source with two parameters. *)
Definition parameters_datasource : Element :=
  mkElement "datasource" [("caption", "Parameters"); ("name", "Parameters")] None
    [mkElement "column" [("caption", "Top N"); ("name", "[Parameter 1]")] None [];
     mkElement "column" [("name", "[Threshold]")] None []].

(** A data source element without attributes. *)
Definition anonymous_datasource : Element :=
  mkElement "datasource" [] None
    [mkElement "column" [("name", "[Sales]")] None []].

Definition empty_data : Data :=
  {| datasources := []; worksheets := []; dashboards := []; parameters := [] |}.

(** One worksheet with [[Sales]] on the rows shelf and in a filter, one
    data source whose column has the technical name [[Sales]]. *)
Definition sales_workbook : Element :=
  mkElement "workbook" [] None
    [mkElement "datasources" [] None
       [mkElement "datasource" [("caption", "Orders"); ("name", "orders")] None
          [mkElement "column" [("name", "[Sales]"); ("role", "measure")] None []]];
     mkElement "worksheets" [] None
       [mkElement "worksheet" [("name", "Sheet1")] None
          [mkElement "table" [] None
             [mkElement "view" [] None
                [mkElement "filter" [("column", "[Sales]")] None []];
              mkElement "rows" [] (Some "[Sales]") []]]]].

(** [<worksheet name="Sheet1"><table><rows>TEXT</rows></table></worksheet>]
    under [<workbook><worksheets>]. *)
Definition worksheet_with_rows (rows_text : string) : Element :=
  mkElement "worksheet" [("name", "Sheet1")] None
    [mkElement "table" [] None
       [mkElement "rows" [] (Some rows_text) []]].

Definition workbook_with_rows (rows_text : string) : Element :=
  mkElement "workbook" [] None
    [mkElement "worksheets" [] None [worksheet_with_rows rows_text]].

End Samples.

(* ================================================================== *)
(** * Facts about the string methods *)
(* ================================================================== *)

Module PyStrFacts.
Import PyStr.
Local Open Scope string_scope.

Lemma app_nil_r (s : string) : s ++ "" = s.
Proof. induction s as [|c s IH]; simpl; [reflexivity | now rewrite IH]. Qed.

Lemma app_assoc (a b c : string) : (a ++ b) ++ c = a ++ (b ++ c).
Proof. induction a as [|x a IH]; simpl; [reflexivity | now rewrite IH]. Qed.

Lemma length_app (a b : string) :
  String.length (a ++ b) = String.length a + String.length b.
Proof. induction a as [|x a IH]; simpl; [reflexivity | now rewrite IH]. Qed.

Lemma prefix_app_self (p r : string) : String.prefix p (p ++ r) = true.
Proof.
  induction p as [|c p IH]; simpl.
  - now destruct r.
  - destruct (ascii_dec c c) as [_|ne]; [exact IH | now elim ne].
Qed.

Lemma prefix_true_split (p s : string) :
  String.prefix p s = true -> exists r, s = p ++ r.
Proof.
  revert s; induction p as [|c p IH]; intros s H.
  - now exists s.
  - destruct s as [|d s]; simpl in H; [discriminate|].
    destruct (ascii_dec c d) as [->|]; [|discriminate].
    destruct (IH _ H) as [r ->]. now exists r.
Qed.

Lemma prefix_app (p a b : string) :
  String.prefix p a = true -> String.prefix p (a ++ b) = true.
Proof.
  intros H. destruct (prefix_true_split _ _ H) as [r ->].
  rewrite app_assoc. apply prefix_app_self.
Qed.

(** *** [split] *)

Section Split.

Variable sep : string.
Hypothesis sep_nonempty : sep <> "".

Lemma split_empty : split sep "" = [""].
Proof. reflexivity. Qed.

Lemma split_nomatch (c : ascii) (r : string) :
  String.prefix sep (String c r) = false ->
  split sep (String c r) = cons_head c (split sep r).
Proof.
  intros H. unfold split. cbn [split_go]. rewrite H.
  destruct (split_go sep 0 r) as [h t]. reflexivity.
Qed.

Lemma split_go_skip (pre rest : string) :
  split_go sep (String.length pre) (pre ++ rest) = split_go sep 0 rest.
Proof. induction pre as [|c pre IH]; simpl; [reflexivity | exact IH]. Qed.

Lemma split_match (rest : string) :
  split sep (sep ++ rest) = "" :: split sep rest.
Proof.
  unfold split. pose proof (prefix_app_self sep rest) as Hp.
  destruct sep as [|a sep'] eqn:E; [now elim sep_nonempty|].
  cbn [append split_go]. cbn [append] in Hp. rewrite Hp.
  cbn [String.length]. rewrite Nat.sub_succ, Nat.sub_0_r.
  rewrite <- E, split_go_skip. destruct (split_go sep 0 rest).
  reflexivity.
Qed.

(** Induction along the way [split] reads its argument. *)
Lemma split_ind (P : string -> Prop) :
  P "" ->
  (forall c r, String.prefix sep (String c r) = false -> P r -> P (String c r)) ->
  (forall r, P r -> P (sep ++ r)) ->
  forall s, P s.
Proof.
  intros H0 Hn Hm s.
  remember (String.length s) as n eqn:En.
  revert s En. induction n as [n IH] using (well_founded_induction Nat.lt_wf_0).
  intros s En.
  destruct s as [|c r]; [exact H0|].
  destruct (String.prefix sep (String c r)) eqn:Hp.
  - destruct (prefix_true_split _ _ Hp) as [r' E]. rewrite E.
    apply Hm. apply (IH (String.length r')); [|reflexivity].
    rewrite En, E, length_app.
    destruct sep; [now elim sep_nonempty | simpl; lia].
  - apply Hn; [exact Hp|]. apply (IH (String.length r)); [|reflexivity].
    rewrite En. simpl. lia.
Qed.

Lemma split_not_nil (s : string) : split sep s <> [].
Proof. unfold split. destruct (split_go sep 0 s). discriminate. Qed.

(** Without an occurrence of the separator there is one piece. *)
Lemma split_no_sep (s : string) :
  contains sep s = false -> split sep s = [s].
Proof.
  induction s as [|c r IH]; intros H.
  - reflexivity.
  - cbn [contains] in H. apply orb_false_iff in H as [Hp Hc].
    rewrite (split_nomatch _ _ Hp), (IH Hc). reflexivity.
Qed.

(** With one there are at least two. *)
Lemma split_with_sep (s : string) :
  contains sep s = true -> 2 <= List.length (split sep s).
Proof.
  induction s as [ | c r Hp IH | r IH] using split_ind; intros H.
  - cbn in H. destruct sep; [now elim sep_nonempty | discriminate].
  - cbn [contains] in H. rewrite Hp in H. cbn in H.
    rewrite (split_nomatch _ _ Hp).
    specialize (IH H). destruct (split sep r); simpl in *; lia.
  - rewrite split_match. pose proof (split_not_nil r).
    destruct (split sep r); [contradiction | simpl; lia].
Qed.

Lemma contains_app_l (a b : string) :
  contains sep a = true -> contains sep (a ++ b) = true.
Proof.
  induction a as [|c r IH]; intros H.
  - cbn in H. destruct sep; [now elim sep_nonempty | discriminate].
  - cbn [contains] in H. cbn [append contains].
    apply orb_true_iff in H as [H|H].
    + change (String c (r ++ b)) with (String c r ++ b).
      now rewrite (prefix_app _ _ b H).
    + rewrite (IH H). apply orb_true_r.
Qed.

Lemma contains_app_r (a b : string) :
  contains sep b = true -> contains sep (a ++ b) = true.
Proof.
  intros H. induction a as [|c r IH]; [exact H|].
  cbn [append contains]. rewrite IH. apply orb_true_r.
Qed.

(** A text without the separator has no part with it. *)
Lemma contains_part (a p b : string) :
  contains sep (a ++ p ++ b) = false -> contains sep p = false.
Proof.
  intros H. destruct (contains sep p) eqn:C; [|reflexivity].
  rewrite contains_app_r in H; [discriminate|].
  now apply contains_app_l.
Qed.

(** The first piece starts the text. *)
Lemma split_head (s : string) :
  exists h t rest, split sep s = h :: t /\ s = h ++ rest.
Proof.
  induction s as [ | c r Hp (h & t & rest & E & R) | r _] using split_ind.
  - now exists "", [], "".
  - rewrite (split_nomatch _ _ Hp), E.
    exists (String c h), t, rest. cbn. now rewrite <- R.
  - rewrite split_match. now exists "", (split sep r), (sep ++ r).
Qed.

(** Every piece is a part of the text. *)
Lemma split_pieces (s p : string) :
  In p (split sep s) -> exists a b, s = a ++ p ++ b.
Proof.
  revert p. induction s as [ | c r Hp IH | r IH] using split_ind; intros p H.
  - destruct H as [<-|[]]. now exists "", "".
  - rewrite (split_nomatch _ _ Hp) in H.
    destruct (split_head r) as (h & t & rest & E & R). rewrite E in *.
    destruct H as [<-|H].
    + exists "", rest. cbn. now rewrite <- R.
    + destruct (IH p (or_intror H)) as (a & b & E').
      exists (String c a), b. cbn. now rewrite E'.
  - rewrite split_match in H. destruct H as [<-|H].
    + exists "", (sep ++ r). reflexivity.
    + destruct (IH p H) as (a & b & E).
      exists (sep ++ a), b. now rewrite app_assoc, <- E.
Qed.

(** No piece holds the separator. *)
Lemma split_pieces_nosep (s p : string) :
  In p (split sep s) -> contains sep p = false.
Proof.
  revert p. induction s as [ | c r Hp IH | r IH] using split_ind; intros p H.
  - destruct H as [<-|[]]. cbn.
    destruct sep; [now elim sep_nonempty | reflexivity].
  - rewrite (split_nomatch _ _ Hp) in H.
    destruct (split_head r) as (h & t & rest & E & R). rewrite E in *.
    destruct H as [<-|H].
    + cbn [contains]. rewrite (IH h (or_introl eq_refl)), orb_false_r.
      destruct (String.prefix sep (String c h)) eqn:Ph; [|reflexivity].
      apply (prefix_app _ _ rest) in Ph. cbn [append] in Ph.
      rewrite <- R in Ph. congruence.
    + apply IH. now right.
  - rewrite split_match in H. destruct H as [<-|H].
    + cbn. destruct sep; [now elim sep_nonempty | reflexivity].
    + now apply IH.
Qed.

(** A stretch of text in which no occurrence of the separator starts
    goes to the first piece of what follows. *)
Lemma split_prepend (s rest : string) :
  (forall a b, s = a ++ b -> b <> "" -> String.prefix sep (b ++ rest) = false) ->
  split sep (s ++ rest) = prepend s (split sep rest).
Proof.
  induction s as [|c r IH]; intros H.
  - cbn [append]. pose proof (split_not_nil rest).
    destruct (split sep rest); [contradiction | reflexivity].
  - cbn [append]. rewrite split_nomatch.
    + rewrite IH.
      * pose proof (split_not_nil rest).
        destruct (split sep rest); [contradiction | reflexivity].
      * intros a b E. apply (H (String c a) b). cbn. now rewrite E.
    + apply (H "" (String c r)); [reflexivity | discriminate].
Qed.

End Split.

(** *** [strip] *)

Section Strip.

Variable chars : string.

Lemma lstrip_split (s : string) :
  exists pre, s = pre ++ lstrip chars s /\ all_in chars pre = true.
Proof.
  induction s as [|c r [pre [E A]]]; [now exists ""|].
  cbn [lstrip]. destruct (mem_char c chars) eqn:M.
  - exists (String c pre). cbn. now rewrite <- E, M, A.
  - now exists "".
Qed.

Lemma rstrip_split (s : string) :
  exists suf, s = rstrip chars s ++ suf /\ all_in chars suf = true.
Proof.
  induction s as [|c r [suf [E A]]]; [now exists ""|].
  cbn [rstrip]. destruct (rstrip chars r) as [|k kept] eqn:R.
  - cbn in E. subst r. destruct (mem_char c chars) eqn:M.
    + exists (String c suf). cbn. now rewrite M, A.
    + now exists suf.
  - exists suf. cbn. now rewrite E.
Qed.

Lemma lstrip_first (s : string) :
  not_in chars (first_char (lstrip chars s)) = true.
Proof.
  induction s as [|c r IH]; [reflexivity|].
  cbn [lstrip]. destruct (mem_char c chars) eqn:M; [exact IH|].
  cbn. now rewrite M.
Qed.

Lemma rstrip_last (s : string) :
  not_in chars (last_char (rstrip chars s)) = true.
Proof.
  induction s as [|c r IH]; [reflexivity|].
  cbn [rstrip]. destruct (rstrip chars r) as [|k kept] eqn:R.
  - destruct (mem_char c chars) eqn:M; [reflexivity|]. cbn. now rewrite M.
  - exact IH.
Qed.

Lemma rstrip_first (s : string) :
  not_in chars (first_char s) = true ->
  not_in chars (first_char (rstrip chars s)) = true.
Proof.
  destruct s as [|c r]; [reflexivity|]. intros H.
  cbn [rstrip]. destruct (rstrip chars r) as [|k kept].
  - cbn in H. apply negb_true_iff in H. rewrite H. cbn. now rewrite H.
  - exact H.
Qed.

Lemma lstrip_length (s : string) :
  String.length (lstrip chars s) <= String.length s.
Proof.
  induction s as [|c r IH]; [reflexivity|].
  cbn [lstrip]. destruct (mem_char c chars); cbn; lia.
Qed.

Lemma rstrip_length (s : string) :
  String.length (rstrip chars s) <= String.length s.
Proof.
  induction s as [|c r IH]; [reflexivity|].
  cbn [rstrip]. destruct (rstrip chars r); [destruct (mem_char c chars)|];
    cbn in *; lia.
Qed.

(** A text that [strip] leaves alone is left alone from each side. *)
Lemma strip_fixed (s : string) :
  strip chars s = s -> lstrip chars s = s /\ rstrip chars s = s.
Proof.
  unfold strip. intros H.
  assert (lstrip chars s = s) as L.
  { destruct s as [|c r]; [reflexivity|].
    cbn [lstrip] in *. destruct (mem_char c chars); [|reflexivity].
    pose proof (rstrip_length (lstrip chars r)) as H1.
    pose proof (lstrip_length r) as H2.
    rewrite H in H1. cbn in H1. lia. }
  split; [exact L | now rewrite L in H].
Qed.

Lemma rstrip_app_char (s : string) (c : ascii) :
  mem_char c chars = true ->
  rstrip chars (s ++ String c "") = rstrip chars s.
Proof.
  intros M. induction s as [|a r IH].
  - cbn. now rewrite M.
  - cbn [append rstrip]. now rewrite IH.
Qed.

Lemma strip_open (s : string) (c : ascii) :
  mem_char c chars = true -> strip chars (String c s) = strip chars s.
Proof. intros M. unfold strip. cbn [lstrip]. now rewrite M. Qed.

Lemma strip_close (s : string) (c : ascii) :
  mem_char c chars = true -> strip chars s = s ->
  strip chars (s ++ String c "") = s.
Proof.
  intros M H. destruct (strip_fixed _ H) as [L R].
  destruct s as [|a r].
  - unfold strip. cbn. now rewrite M.
  - unfold strip. cbn [lstrip append] in *.
    destruct (mem_char a chars) eqn:Ma.
    + pose proof (lstrip_length r) as H2. rewrite L in H2. cbn in H2. lia.
    + change (String a (r ++ String c "")) with (String a r ++ String c "").
      now rewrite rstrip_app_char.
Qed.

(** The stripped text is a part of the text. *)
Lemma strip_split (s : string) :
  exists pre suf, s = pre ++ strip chars s ++ suf.
Proof.
  unfold strip.
  destruct (lstrip_split s) as [pre [E _]].
  destruct (rstrip_split (lstrip chars s)) as [suf [E' _]].
  exists pre, suf. now rewrite <- E', <- E.
Qed.

(** What begins with none of the characters is left alone from the
    left, what ends with none of them from the right. *)
Lemma lstrip_clean (s : string) :
  not_in chars (first_char s) = true -> lstrip chars s = s.
Proof.
  destruct s as [|c r]; [reflexivity|]. cbn. intros H.
  apply negb_true_iff in H. now rewrite H.
Qed.

Lemma rstrip_clean (s : string) :
  not_in chars (last_char s) = true -> rstrip chars s = s.
Proof.
  induction s as [|c r IH]; [reflexivity|].
  destruct r as [|d r'].
  - cbn. intros H. apply negb_true_iff in H. now rewrite H.
  - intros H. change (last_char (String c (String d r')))
      with (last_char (String d r')) in H.
    specialize (IH H). remember (String d r') as r eqn:Er.
    cbn [rstrip]. rewrite IH. now subst r.
Qed.

(** Stripping twice is stripping once. *)
Lemma strip_idempotent (s : string) :
  strip chars (strip chars s) = strip chars s.
Proof.
  unfold strip at 1.
  rewrite lstrip_clean.
  - apply rstrip_clean. apply rstrip_last.
  - unfold strip. apply rstrip_first, lstrip_first.
Qed.

(** A text made of the characters to strip is stripped to nothing. *)
Lemma strip_all_in (s : string) : all_in chars s = true -> strip chars s = "".
Proof.
  unfold strip. induction s as [|c r IH]; [reflexivity|].
  cbn [all_in lstrip]. intros H. apply andb_true_iff in H as [M A].
  rewrite M. exact (IH A).
Qed.

End Strip.

End PyStrFacts.

(* ================================================================== *)
(** * The reference normalizer *)
(* ================================================================== *)

Module NormalizeFacts.
Import PyStr PyStrFacts.
Local Open Scope string_scope.

Lemma colon_nonempty : ":" <> "".
Proof. discriminate. Qed.

Lemma delimiter_nonempty : "].[" <> "".
Proof. discriminate. Qed.

(** The code tests [':' in clean_part] and then the number of parts; the
    specification only counts the parts.  Both keep the same name. *)
Lemma clean_segment_spec (part : string) :
  clean_segment part = segment_name_spec part.
Proof.
  unfold clean_segment, segment_name_spec. cbv zeta.
  destruct (contains ":" (strip "[]" part)) eqn:C.
  - pose proof (split_with_sep ":" colon_nonempty _ C) as L.
    destruct (split ":" (strip "[]" part)) as [|p0 [|p1 ps]]; simpl in L; try lia.
    reflexivity.
  - now rewrite (split_no_sep ":" _ C).
Qed.

(** C2.  The normalizer drops derivation and type tags:
    ["[none:Sales:nk]"] becomes ["[Sales]"], ["[sum:Profit:qk]"] becomes
    ["[Profit]"] and ["[Datasource].[none:Field:nk]"] becomes
    ["[Datasource].[Field]"]; and on every non-empty reference it is the
    rule of the specification: split at ["].["], replace each debracketed
    segment that splits on [":"] into two parts or more by the part at
    index 1, wrap every segment in brackets, join with ["."]. *)
Theorem normalize_strips_tags :
  normalize_field_ref "[none:Sales:nk]" = "[Sales]" /\
  normalize_field_ref "[sum:Profit:qk]" = "[Profit]" /\
  normalize_field_ref "[Datasource].[none:Field:nk]" = "[Datasource].[Field]" /\
  forall (c : ascii) (rest : string),
    let field_ref := String c rest in
    normalize_field_ref field_ref =
    join "." (map (fun segment => "[" ++ segment_name_spec segment ++ "]")
                  (split "].[" field_ref)).
Proof.
  repeat split; try reflexivity.
  intros c rest field_ref. unfold normalize_field_ref. cbn [nonempty field_ref].
  f_equal. apply map_ext. intros part. unfold wrap.
  now rewrite clean_segment_spec.
Qed.

(** C4, as the specification has it, fails on ["[[x]]"]: stripping one
    bracket pair would keep ["[x]"] and give the id ["[[x]]"], whereas
    the code strips both pairs and gives ["[x]"]. *)
Lemma one_bracket_pair_counterexample :
  strip_outer_pair_spec "[[x]]" = "[x]" /\
  strip "[]" "[[x]]" = "x" /\
  normalize_field_ref "[[x]]" = "[x]" /\
  normalize_field_ref "[[x]]" <> wrap (strip_outer_pair_spec "[[x]]").
Proof. repeat split; try reflexivity. discriminate. Qed.

Lemma Forall2_map_r {A B} (R : A -> B -> Prop) (f : A -> B) (l : list A) :
  (forall x, R x (f x)) -> Forall2 R l (map f l).
Proof. intros H. induction l; cbn; constructor; auto. Qed.

(** C4, amended.  When a non-empty reference is normalized, each
    ["].["]-delimited segment loses every leading and every trailing
    bracket character (["["] or ["]"], in any number and mix) before
    the colon rule is applied: the segment is a run of brackets, a core
    that neither begins nor ends with a bracket, and a run of brackets,
    and the id is made of the names kept from the cores, each in one
    pair of brackets, joined by ["."].  So ["[[x]]"] is normalized to
    ["[x]"]. *)
Theorem strip_removes_every_outer_bracket :
  (forall (c : ascii) (rest : string),
      let field_ref := String c rest in
      exists names,
        normalize_field_ref field_ref = join "." (map wrap names) /\
        Forall2
          (fun segment name =>
             exists pre core suf,
               segment = pre ++ core ++ suf /\
               all_in "[]" pre = true /\ all_in "[]" suf = true /\
               not_in "[]" (first_char core) = true /\
               not_in "[]" (last_char core) = true /\
               name = kept_name core)
          (split "].[" field_ref) names) /\
  normalize_field_ref "[[x]]" = "[x]".
Proof.
  split; [|reflexivity].
  intros c rest field_ref.
  exists (map clean_segment (split "].[" field_ref)). split.
  - unfold normalize_field_ref. cbn [nonempty field_ref]. now rewrite map_map.
  - apply Forall2_map_r. intros segment.
    destruct (lstrip_split "[]" segment) as [pre [E A]].
    destruct (rstrip_split "[]" (lstrip "[]" segment)) as [suf [E' A']].
    exists pre, (strip "[]" segment), suf. unfold strip at 1.
    split; [now rewrite <- E', <- E|].
    split; [exact A|]. split; [exact A'|].
    split; [apply rstrip_first, lstrip_first|].
    split; [apply rstrip_last|].
    apply clean_segment_spec.
Qed.

(** *** Normalizing twice *)

Lemma join_wrap (names : list string) :
  names <> [] ->
  join "." (map wrap names) = "[" ++ join "].[" names ++ "]".
Proof.
  unfold join, wrap. induction names as [|n [|n' rest] IH]; intros N.
  - contradiction.
  - reflexivity.
  - change (String.concat "." (map (fun name => "[" ++ name ++ "]") (n :: n' :: rest)))
      with (("[" ++ n ++ "]") ++ "." ++
            String.concat "." (map (fun name => "[" ++ name ++ "]") (n' :: rest))).
    rewrite IH by discriminate.
    change (String.concat "].[" (n :: n' :: rest))
      with (n ++ "].[" ++ String.concat "].[" (n' :: rest)).
    cbn [append]. f_equal. rewrite !app_assoc. reflexivity.
Qed.

(** Inside a name without the delimiter, and before a closing bracket,
    no occurrence of the delimiter starts. *)
Lemma delimiter_blocked (n rest : string) :
  contains "].[" n = false ->
  forall a b, n = a ++ b -> b <> "" ->
  String.prefix "].[" (b ++ String "]" rest) = false.
Proof.
  intros C a b E Nb. subst n.
  assert (contains "].[" b = false) as Cb.
  { apply (contains_part "].[" delimiter_nonempty a b "").
    now rewrite app_nil_r. }
  destruct b as [|c1 b1]; [contradiction|].
  cbn [append String.prefix].
  destruct (ascii_dec "]" c1) as [<-|]; [|reflexivity].
  destruct b1 as [|c2 b2]; [reflexivity|].
  cbn [append String.prefix].
  destruct (ascii_dec "." c2) as [<-|]; [|reflexivity].
  destruct b2 as [|c3 b3]; [reflexivity|].
  cbn [append String.prefix].
  destruct (ascii_dec "[" c3) as [<-|]; [|reflexivity].
  cbn [contains] in Cb.
  change (String "]" (String "." (String "[" b3))) with ("].[" ++ b3) in Cb.
  rewrite prefix_app_self in Cb. discriminate.
Qed.

Lemma split_joined (names : list string) :
  Forall (fun n => contains "].[" n = false) names ->
  names <> [] ->
  split "].[" (join "].[" names ++ "]") = close_last names.
Proof.
  unfold join. induction names as [|n [|n' rest] IH]; intros F N.
  - contradiction.
  - cbn [String.concat close_last].
    rewrite split_prepend.
    + reflexivity.
    + apply delimiter_blocked. now inversion F.
  - change (String.concat "].[" (n :: n' :: rest))
      with (n ++ "].[" ++ String.concat "].[" (n' :: rest)).
    rewrite !app_assoc. rewrite split_prepend.
    + rewrite (split_match "].[" delimiter_nonempty).
      rewrite IH; [|now inversion F|discriminate].
      cbn [prepend close_last]. now rewrite app_nil_r.
    + apply delimiter_blocked. now inversion F.
Qed.

(** The name kept for a segment is a part of the segment. *)
Lemma clean_segment_part (part : string) :
  exists a b, part = a ++ clean_segment part ++ b.
Proof.
  destruct (strip_split "[]" part) as (pre & suf & E).
  rewrite clean_segment_spec. unfold segment_name_spec. cbv zeta.
  destruct (split ":" (strip "[]" part)) as [|p0 [|p1 ps]] eqn:S;
    try (now exists pre, suf).
  destruct (split_pieces ":" colon_nonempty (strip "[]" part) p1) as (a & b & E').
  { rewrite S. right. now left. }
  exists (pre ++ a), (b ++ suf).
  rewrite E at 1. rewrite E' at 1. now rewrite !app_assoc.
Qed.

Lemma clean_segment_no_colon (part : string) :
  contains ":" (clean_segment part) = false.
Proof.
  unfold clean_segment. cbv zeta.
  destruct (contains ":" (strip "[]" part)) eqn:C; [|exact C].
  pose proof (split_with_sep ":" colon_nonempty _ C) as L.
  destruct (split ":" (strip "[]" part)) as [|p0 [|p1 ps]] eqn:S;
    simpl in L; try lia.
  cbn [List.length Nat.leb nth].
  apply (split_pieces_nosep ":" colon_nonempty (strip "[]" part)).
  rewrite S. right. now left.
Qed.

Lemma clean_segment_no_delimiter (part : string) :
  contains "].[" part = false -> contains "].[" (clean_segment part) = false.
Proof.
  intros C. destruct (clean_segment_part part) as (a & b & E).
  apply (contains_part "].[" delimiter_nonempty a _ b). now rewrite <- E.
Qed.

(** A segment whose debracketed text is a name without colon keeps that
    name. *)
Lemma clean_segment_of_strip (part name : string) :
  strip "[]" part = name -> contains ":" name = false ->
  clean_segment part = name.
Proof. intros S C. unfold clean_segment. cbv zeta. now rewrite S, C. Qed.

Lemma clean_close_last (names : list string) :
  Forall (fun n => strip "[]" n = n /\ contains ":" n = false) names ->
  map clean_segment (close_last names) = names.
Proof.
  induction names as [|n [|n' rest] IH]; intros F.
  - reflexivity.
  - inversion F as [|? ? [S C] _]; subst. cbn [close_last map]. f_equal.
    apply clean_segment_of_strip; [|exact C].
    now apply strip_close.
  - inversion F as [|? ? [S C] F']; subst.
    change (close_last (n :: n' :: rest)) with (n :: close_last (n' :: rest)).
    cbn [map]. rewrite (IH F'). f_equal.
    now apply clean_segment_of_strip.
Qed.

Lemma clean_reopened (names : list string) :
  names <> [] ->
  Forall (fun n => strip "[]" n = n /\ contains ":" n = false) names ->
  map clean_segment (cons_head "[" (close_last names)) = names.
Proof.
  destruct names as [|n [|n' rest]]; intros N F.
  - contradiction.
  - inversion F as [|? ? [S C] _]; subst. cbn [close_last cons_head map].
    f_equal. apply clean_segment_of_strip; [|exact C].
    rewrite strip_open by reflexivity. now apply strip_close.
  - inversion F as [|? ? [S C] F']; subst.
    change (close_last (n :: n' :: rest)) with (n :: close_last (n' :: rest)).
    cbn [cons_head map]. rewrite (clean_close_last _ F'). f_equal.
    apply clean_segment_of_strip; [|exact C].
    now rewrite strip_open.
Qed.

(** The pieces of the normalized id, split again. *)
Lemma split_normalized (names : list string) :
  names <> [] ->
  Forall (fun n => contains "].[" n = false) names ->
  split "].[" (join "." (map wrap names)) = cons_head "[" (close_last names).
Proof.
  intros N F. rewrite (join_wrap _ N). cbn [append].
  rewrite split_nomatch by reflexivity.
  now rewrite split_joined.
Qed.

(** C3, as stated, fails: the name kept from a tagged segment may itself
    carry brackets, which the second pass strips. *)
Lemma normalize_idempotent_counterexample :
  normalize_field_ref "[none:[Sales]:nk]" = "[[Sales]]" /\
  normalize_field_ref (normalize_field_ref "[none:[Sales]:nk]")
    <> normalize_field_ref "[none:[Sales]:nk]".
Proof. split; [reflexivity | discriminate]. Qed.

(** C3, amended.  Normalization is idempotent on every reference in
    which no segment keeps a name that begins or ends with a bracket
    character, that is, a name that bracket stripping leaves as it
    is. *)
Theorem normalize_idempotent_clean_names (x : string) :
  Forall (fun part => strip "[]" (clean_segment part) = clean_segment part)
         (split "].[" x) ->
  normalize_field_ref (normalize_field_ref x) = normalize_field_ref x.
Proof.
  intros F. destruct x as [|c r]; [reflexivity|].
  set (x := String c r) in *.
  set (names := map clean_segment (split "].[" x)).
  assert (normalize_field_ref x = join "." (map wrap names)) as E.
  { unfold normalize_field_ref, names. cbn [nonempty x]. now rewrite map_map. }
  assert (names <> []) as N.
  { unfold names. pose proof (split_not_nil "].[" x).
    destruct (split "].[" x); [contradiction | discriminate]. }
  assert (nonempty (join "." (map wrap names)) = true) as Y.
  { now rewrite (join_wrap _ N). }
  rewrite E. unfold normalize_field_ref. rewrite Y.
  rewrite <- (map_map clean_segment wrap).
  rewrite split_normalized; [|exact N|].
  - rewrite clean_reopened; [reflexivity | exact N |].
    unfold names. apply Forall_forall. intros n Hn.
    apply in_map_iff in Hn as (part & <- & Hp). split.
    + rewrite Forall_forall in F. now apply F.
    + apply clean_segment_no_colon.
  - unfold names. apply Forall_forall. intros n Hn.
    apply in_map_iff in Hn as (part & <- & Hp).
    apply clean_segment_no_delimiter.
    now apply (split_pieces_nosep "].[" delimiter_nonempty x).
Qed.

Lemma normalize_idempotent_clean_names_witness :
  normalize_field_ref (normalize_field_ref "[Datasource].[none:Field:nk]")
  = normalize_field_ref "[Datasource].[none:Field:nk]".
Proof.
  apply normalize_idempotent_clean_names.
  vm_compute. repeat constructor.
Defined.

End NormalizeFacts.

(* ================================================================== *)
(** * Dictionaries *)
(* ================================================================== *)

Module DictFacts.

Section Facts.

Context {V : Type}.

Lemma lookup_set_same (k : string) (v : V) (d : Dict.t V) :
  Dict.lookup k (Dict.set k v d) = Some v.
Proof.
  induction d as [|[k' v'] d IH]; cbn.
  - now rewrite String.eqb_refl.
  - destruct (String.eqb k k') eqn:E; cbn; rewrite E; [reflexivity | exact IH].
Qed.

Lemma lookup_set_other (k k' : string) (v : V) (d : Dict.t V) :
  k <> k' -> Dict.lookup k' (Dict.set k v d) = Dict.lookup k' d.
Proof.
  intros N. induction d as [|[k0 v0] d IH]; cbn.
  - apply String.eqb_neq in N. now rewrite String.eqb_sym, N.
  - destruct (String.eqb k k0) eqn:E; cbn.
    + apply String.eqb_eq in E. subst k0.
      destruct (String.eqb k' k) eqn:E'; [|reflexivity].
      apply String.eqb_eq in E'. now elim N.
    + now rewrite IH.
Qed.

Lemma lookup_In (k : string) (v : V) (d : Dict.t V) :
  Dict.lookup k d = Some v -> In (k, v) d.
Proof.
  induction d as [|[k' v'] d IH]; cbn; [discriminate|].
  destruct (String.eqb k k') eqn:E.
  - apply String.eqb_eq in E. intros [= ->]. left. now subst.
  - intros H. right. now apply IH.
Qed.

(** What holds of the values of a dictionary and of a new value holds
    of the values after the assignment. *)
Lemma set_Forall (P : V -> Prop) (k : string) (v : V) (d : Dict.t V) :
  P v -> Forall (fun item => P (snd item)) d ->
  Forall (fun item => P (snd item)) (Dict.set k v d).
Proof.
  intros Hv. induction d as [|[k' v'] d IH]; intros F; cbn.
  - now constructor.
  - inversion F; subst. destruct (String.eqb k k'); constructor; auto.
Qed.

Lemma get_default_Forall (P : V -> Prop) (k : string) (dflt : V) (d : Dict.t V) :
  P dflt -> Forall (fun item => P (snd item)) d ->
  P (Dict.get_default k dflt d).
Proof.
  intros Hd F. unfold Dict.get_default.
  destruct (Dict.lookup k d) as [v|] eqn:L; [|exact Hd].
  apply lookup_In in L. rewrite Forall_forall in F. exact (F _ L).
Qed.

End Facts.

End DictFacts.

(** A loop keeps what each of its iterations keeps. *)
Lemma fold_left_invariant {A B : Type} (P : A -> Prop) (f : A -> B -> A)
  (l : list B) (a : A) :
  (forall a b, P a -> P (f a b)) -> P a -> P (fold_left f l a).
Proof. intros H. revert a. induction l; cbn; auto. Qed.

(* ================================================================== *)
(** * The usage map *)
(* ================================================================== *)

Module UsageFacts.
Import DictFacts.

Lemma register_registers (um : UsageMap) (f ws r : string) :
  registered (register um f ws r) f ws r.
Proof.
  unfold registered, register. eexists _, _.
  split; [apply lookup_set_same|].
  split; [apply lookup_set_same|].
  apply in_or_app. right. now left.
Qed.

(** A registration removes nothing. *)
Lemma register_keeps (um : UsageMap) (f ws r f' ws' r' : string) :
  registered um f' ws' r' -> registered (register um f ws r) f' ws' r'.
Proof.
  intros (per_ws & roles & L1 & L2 & I). unfold registered, register.
  destruct (string_dec f f') as [<-|Nf].
  - destruct (string_dec ws ws') as [<-|Nw].
    + eexists _, _. split; [apply lookup_set_same|].
      unfold Dict.get_default, UsageMap, Dict.t in *. rewrite L1, L2.
      split; [apply lookup_set_same|].
      apply in_or_app. now left.
    + eexists _, _. split; [apply lookup_set_same|].
      unfold Dict.get_default, UsageMap, Dict.t in *. rewrite L1.
      rewrite (lookup_set_other _ _ _ _ Nw). split; [exact L2 | exact I].
  - exists per_ws, roles. now rewrite (lookup_set_other _ _ _ _ Nf).
Qed.

(** Take the guards of a loop body apart: an attribute or text that may
    be absent, then its truth value. *)
Ltac guards :=
  repeat match goal with
         | |- context [match ?o with Some _ => _ | None => _ end] => destruct o
         | |- context [if PyStr.nonempty ?s then _ else _] =>
             destruct (PyStr.nonempty s)
         end.

(** What every registration preserves, the whole scan preserves. *)
Section Preserved.

Variable P : UsageMap -> Prop.
Hypothesis P_register :
  forall um f ws r, P um -> P (register um f ws r).

Lemma register_token_preserves ws_name role um field :
  P um -> P (register_token ws_name role um field).
Proof. unfold register_token. cbv zeta. guards; auto. Qed.

Lemma register_shelf_preserves shelf ws_name role um :
  P um -> P (register_shelf shelf ws_name role um).
Proof.
  intros K. unfold register_shelf. guards; try exact K.
  apply fold_left_invariant; [|exact K].
  intros; now apply register_token_preserves.
Qed.

Lemma register_filter_preserves ws_name um node :
  P um -> P (register_filter ws_name um node).
Proof. unfold register_filter. guards; auto. Qed.

Lemma register_slice_preserves ws_name um node :
  P um -> P (register_slice ws_name um node).
Proof. unfold register_slice. guards; auto. Qed.

Lemma worksheet_usage_preserves w ws_name um :
  P um -> P (worksheet_usage w ws_name um).
Proof.
  intros K. unfold worksheet_usage. cbv zeta.
  apply fold_left_invariant; [intros; now apply register_slice_preserves|].
  apply fold_left_invariant; [intros; now apply register_filter_preserves|].
  now do 2 apply register_shelf_preserves.
Qed.

Lemma scan_worksheet_preserves st w :
  P (snd st) -> P (snd (scan_worksheet st w)).
Proof.
  intros K. unfold scan_worksheet. guards; try exact K.
  cbn [snd]. now apply worksheet_usage_preserves.
Qed.

Lemma build_usage_map_preserves root : P [] -> P (build_usage_map root).
Proof.
  intros K. unfold build_usage_map, scan_worksheets.
  apply (fold_left_invariant (fun st => P (snd st))); [|exact K].
  intros; now apply scan_worksheet_preserves.
Qed.

End Preserved.

(** What the rows shelf ["(sum(Sales))/[Region]"] registers. *)
Lemma rows_tokens (um : UsageMap) :
  fold_left (register_token "Sheet1" "Row")
            (PyStr.split "/" "(sum(Sales))/[Region]") um
  = register (register um "[sum(Sales]" "Sheet1" "Row")
             "[Region]" "Sheet1" "Row".
Proof. reflexivity. Qed.

(** C1, as stated, fails: with the rows text ["(sum(Sales))/[Region]"]
    nothing is registered under ["[Sales]"]; the first token is kept as
    ["sum(Sales"] and registered as ["[sum(Sales]"]. *)
Lemma rows_shelf_counterexample :
  build_usage_map (Samples.workbook_with_rows "(sum(Sales))/[Region]")
  = [("[sum(Sales]", [("Sheet1", ["Row"])]);
     ("[Region]", [("Sheet1", ["Row"])])] /\
  ~ registered
      (build_usage_map (Samples.workbook_with_rows "(sum(Sales))/[Region]"))
      "[Sales]" "Sheet1" "Row".
Proof.
  split; [reflexivity|].
  intros (per_ws & roles & L & _). discriminate L.
Qed.

(** C1, amended.  For every worksheet named ["Sheet1"] of a document
    whose rows-shelf text is ["(sum(Sales))/[Region]"], the usage map of
    the document has role ["Row"] under worksheet ["Sheet1"] for the ids
    ["[sum(Sales]"] and ["[Region]"]: the parentheses at the two ends of
    a token are stripped, those inside it are kept, and a function-call
    spelling such as [sum(...)] is not taken apart.  A token made of
    parentheses only, or empty, registers nothing. *)
Theorem rows_shelf_registers :
  (forall root ws rows : Element,
      In ws (ET.findall_desc "worksheet" root) ->
      ET.get ws "name" = Some "Sheet1" ->
      ET.find_desc "rows" ws = Some rows ->
      ET.text rows = Some "(sum(Sales))/[Region]" ->
      registered (build_usage_map root) "[sum(Sales]" "Sheet1" "Row" /\
      registered (build_usage_map root) "[Region]" "Sheet1" "Row") /\
  (forall (ws_name role : string) (usage_map : UsageMap) (token : string),
      all_in "()" token = true ->
      register_token ws_name role usage_map token = usage_map).
Proof.
  split.
  2:{ intros ws_name role um token A. unfold register_token. cbv zeta.
      now rewrite (PyStrFacts.strip_all_in "()" token A). }
  intros root ws rows I Hname Hrows Htext.
  unfold build_usage_map, scan_worksheets.
  destruct (in_split _ _ I) as (l1 & l2 & ->).
  rewrite fold_left_app. cbn [fold_left].
  set (st := fold_left scan_worksheet l1 ([], [])).
  assert (forall um,
             register_shelf (ET.find_desc "rows" ws) "Sheet1" "Row" um
             = register (register um "[sum(Sales]" "Sheet1" "Row")
                        "[Region]" "Sheet1" "Row") as Hshelf.
  { intros um. unfold register_shelf. rewrite Hrows, Htext.
    cbn [PyStr.nonempty]. apply rows_tokens. }
  split.
  all: apply (fold_left_invariant (fun st => registered (snd st) _ _ _));
    [intros; apply scan_worksheet_preserves; auto using register_keeps|].
  all: unfold scan_worksheet; rewrite Hname; cbn [PyStr.nonempty snd].
  all: unfold worksheet_usage; cbv zeta.
  all: apply (fold_left_invariant (fun um => registered um _ _ _));
    [intros; apply register_slice_preserves; auto using register_keeps|].
  all: apply (fold_left_invariant (fun um => registered um _ _ _));
    [intros; apply register_filter_preserves; auto using register_keeps|].
  all: apply (register_shelf_preserves (fun um => registered um _ _ _));
    [auto using register_keeps|]; rewrite Hshelf.
  - apply register_keeps, register_registers.
  - apply register_registers.
Qed.

Lemma rows_shelf_registers_witness :
  (registered
     (build_usage_map (Samples.workbook_with_rows "(sum(Sales))/[Region]"))
     "[sum(Sales]" "Sheet1" "Row" /\
   registered
     (build_usage_map (Samples.workbook_with_rows "(sum(Sales))/[Region]"))
     "[Region]" "Sheet1" "Row") /\
  register_token "Sheet1" "Row" [] "()" = [].
Proof.
  split.
  - apply (proj1 rows_shelf_registers
             (Samples.workbook_with_rows "(sum(Sales))/[Region]")
             (Samples.worksheet_with_rows "(sum(Sales))/[Region]")
             (mkElement "rows" [] (Some "(sum(Sales))/[Region]") [])).
    + simpl. left. reflexivity.
    + reflexivity.
    + reflexivity.
    + reflexivity.
  - apply (proj2 rows_shelf_registers "Sheet1" "Row" [] "()").
    reflexivity.
Defined.

(** *** Roles: a list in the usage map, a set once resolved *)

Lemma add_NoDup (s : PySet.t) (x : string) :
  NoDup s -> NoDup (PySet.add s x).
Proof.
  intros N. unfold PySet.add, PySet.mem.
  destruct (existsb (String.eqb x) s) eqn:E; [exact N|].
  apply NoDup_app; [exact N | repeat constructor; intros [] |].
  intros y Hy [<-|[]].
  assert (existsb (String.eqb x) s = true) as E'.
  { apply existsb_exists. exists x. split; [exact Hy | apply String.eqb_refl]. }
  congruence.
Qed.

Lemma update_NoDup (xs : list string) (s : PySet.t) :
  NoDup s -> NoDup (PySet.update s xs).
Proof.
  unfold PySet.update. apply fold_left_invariant.
  intros; now apply add_NoDup.
Qed.

Lemma merge_roles_NoDup (info : Dict.t PySet.t) (item : string * list string) :
  Forall (fun it => NoDup (snd it)) info ->
  Forall (fun it => NoDup (snd it)) (merge_roles info item).
Proof.
  intros F. destruct item as [ws roles]. unfold merge_roles.
  apply (set_Forall (fun v => NoDup v)); [|exact F].
  apply update_NoDup.
  apply (get_default_Forall (fun v => NoDup v)); [constructor | exact F].
Qed.

Lemma collect_usage_NoDup (um : UsageMap) (names : list string) :
  Forall (fun it => NoDup (snd it)) (collect_usage um names).
Proof.
  unfold collect_usage. apply fold_left_invariant; [|constructor].
  intros info tn F. unfold merge_candidate.
  destruct (Dict.lookup tn um) as [per_ws|]; [|exact F].
  apply fold_left_invariant; [|exact F].
  intros; now apply merge_roles_NoDup.
Qed.

(** C5, as stated, fails: in the usage map the roles of a field in a
    worksheet are a list that grows by one entry for each registration;
    a field twice in the rows shelf has the two entries ["Row"],
    ["Row"]. *)
Lemma usage_map_keeps_duplicates :
  roles_of (build_usage_map (Samples.workbook_with_rows "[Sales]/[Sales]"))
           "[Sales]" "Sheet1" = ["Row"; "Row"] /\
  List.length
    (roles_of (build_usage_map (Samples.workbook_with_rows "[Sales]/[Sales]"))
              "[Sales]" "Sheet1") <> 1.
Proof. split; [reflexivity | discriminate]. Qed.

(** C5, amended.  The usage map records a role once for each
    registration; the roles are deduplicated when the usage of a field
    is resolved: in the roles collected for a field from any usage map
    and any candidate names, no worksheet has a role twice, and a role
    registered twice for one field and worksheet is collected as a set
    of size 1. *)
Theorem roles_deduplicated_on_resolution :
  (forall (usage_map : UsageMap) (names : list string),
      Forall (fun item => NoDup (snd item)) (collect_usage usage_map names)) /\
  (forall field ws_name role : string,
      let usage_map :=
        register (register [] field ws_name role) field ws_name role in
      roles_of usage_map field ws_name = [role; role] /\
      collect_usage usage_map [field] = [(ws_name, [role])]).
Proof.
  split; [apply collect_usage_NoDup|].
  intros field ws_name role. cbv zeta.
  unfold register, roles_of, collect_usage, merge_candidate, merge_roles,
    PySet.update, PySet.add, PySet.mem, Dict.get_default.
  cbn. rewrite !String.eqb_refl. cbn. rewrite !String.eqb_refl. cbn.
  rewrite !String.eqb_refl. cbn. rewrite ?String.eqb_refl. auto.
Qed.

End UsageFacts.

(* ================================================================== *)
(** * The field catalog *)
(* ================================================================== *)

Module FieldFacts.
Import DictFacts.

Lemma filter_singleton {A} (p : A -> bool) (l : list A) (x : A) :
  filter p l = [x] ->
  exists l1 l2, l = l1 ++ x :: l2 /\
                Forall (fun y => p y = false) l1 /\
                Forall (fun y => p y = false) l2 /\ p x = true.
Proof.
  induction l as [|y l IH]; cbn; [discriminate|].
  destruct (p y) eqn:E.
  - intros [= -> F]. exists [], l. repeat split; try constructor; try assumption.
    clear - F. induction l as [|z l IH]; [constructor|].
    cbn in F. destruct (p z) eqn:Ez; [discriminate|]. constructor; auto.
  - intros F. destruct (IH F) as (l1 & l2 & -> & F1 & F2 & Px).
    exists (y :: l1), l2. repeat split; try assumption. now constructor.
Qed.

Section Tables.

Context {tables : StrTables}.

(** A column definition leaves the records of the other names alone. *)
Lemma add_column_other (name : string) (d : Dict.t Field) (col : Element) :
  named name col = false ->
  Dict.lookup name (add_column d col) = Dict.lookup name d.
Proof.
  unfold named, add_column, opt_eqb. intros N.
  destruct (ET.get col "name") as [m|]; [|reflexivity].
  destruct (PyStr.nonempty m); [|reflexivity].
  apply lookup_set_other. apply String.eqb_neq. exact N.
Qed.

Lemma add_columns_others (name : string) (cols : list Element) (d : Dict.t Field) :
  Forall (fun c => named name c = false) cols ->
  Dict.lookup name (fold_left add_column cols d) = Dict.lookup name d.
Proof.
  intros F. revert d. induction F as [|c cols N F IH]; intros d; cbn.
  - reflexivity.
  - now rewrite IH, add_column_other.
Qed.

Lemma enrich_field_tech_name (col : Element) (f : Field) :
  f_tech_name (enrich_field col f) = f_tech_name f.
Proof.
  unfold enrich_field.
  destruct (ET.get col "caption") as [c|]; [destruct (PyStr.nonempty c)|];
  (destruct (ET.get col "role") as [r|]; [destruct (PyStr.nonempty r)|]);
  (destruct (ET.get col "datatype") as [t|]; [destruct (PyStr.nonempty t)|]);
  destruct (ET.find_child "calculation" col); reflexivity.
Qed.

(** What a column definition with a calculation makes of a record. *)
Lemma enrich_field_calculation (col calc : Element) (f : Field) :
  ET.find_child "calculation" col = Some calc ->
  f_role (enrich_field col f) = "Calculation" /\
  f_formula (enrich_field col f) = or_str (ET.get calc "formula") "" /\
  f_datatype (enrich_field col f) =
    match ET.get col "datatype" with
    | Some d => if PyStr.nonempty d then capitalize d else f_datatype f
    | None => f_datatype f
    end.
Proof.
  intros C. unfold enrich_field. rewrite C.
  destruct (ET.get col "caption") as [c|]; [destruct (PyStr.nonempty c)|];
  (destruct (ET.get col "role") as [r|]; [destruct (PyStr.nonempty r)|]);
  (destruct (ET.get col "datatype") as [t|]; [destruct (PyStr.nonempty t)|]);
  repeat split.
Qed.

Lemma keyed_lookup (d : Dict.t Field) (k : string) (f : Field) :
  keyed d -> Dict.lookup k d = Some f -> f_tech_name f = k.
Proof.
  intros K L. apply lookup_In in L. unfold keyed in K.
  rewrite Forall_forall in K. exact (K _ L).
Qed.

Lemma set_keyed (k : string) (f : Field) (d : Dict.t Field) :
  f_tech_name f = k -> keyed d -> keyed (Dict.set k f d).
Proof.
  intros T K. induction K as [|[k' f'] d H K IH]; cbn.
  - now repeat constructor.
  - destruct (String.eqb k k') eqn:E; constructor; try assumption.
    apply String.eqb_eq in E. cbn. congruence.
Qed.

Lemma add_metadata_record_keyed (d : Dict.t Field) (mr : Element) :
  keyed d -> keyed (add_metadata_record d mr).
Proof.
  intros K. unfold add_metadata_record.
  destruct (ET.findtext "local-name" mr) as [n|]; [|exact K].
  destruct (PyStr.nonempty n); [|exact K].
  now apply set_keyed.
Qed.

Lemma add_column_keyed (d : Dict.t Field) (col : Element) :
  keyed d -> keyed (add_column d col).
Proof.
  intros K. unfold add_column.
  destruct (ET.get col "name") as [n|]; [|exact K].
  destruct (PyStr.nonempty n); [|exact K].
  apply set_keyed; [|exact K]. rewrite enrich_field_tech_name.
  destruct (Dict.lookup n d) as [f|] eqn:L;
    [now apply (keyed_lookup d) | reflexivity].
Qed.

Lemma discover_fields_keyed (ds : Element) : keyed (discover_fields ds).
Proof.
  unfold discover_fields. cbv zeta.
  apply fold_left_invariant; [apply add_column_keyed|].
  apply fold_left_invariant; [apply add_metadata_record_keyed|].
  constructor.
Qed.

(** The datatype after a column definition, with or without a
    calculation. *)
Lemma enrich_field_datatype (col : Element) (f : Field) :
  f_datatype (enrich_field col f) =
    match ET.get col "datatype" with
    | Some d => if PyStr.nonempty d then capitalize d else f_datatype f
    | None => f_datatype f
    end.
Proof.
  unfold enrich_field.
  destruct (ET.get col "caption") as [c|]; [destruct (PyStr.nonempty c)|];
  (destruct (ET.get col "role") as [r|]; [destruct (PyStr.nonempty r)|]);
  (destruct (ET.get col "datatype") as [t|]; [destruct (PyStr.nonempty t)|]);
  destruct (ET.find_child "calculation" col); reflexivity.
Qed.

(** A column definition without calculation and without role leaves
    the role and the formula alone. *)
Lemma enrich_field_plain (col : Element) (f : Field) :
  ET.find_child "calculation" col = None ->
  truthy (ET.get col "role") = false ->
  f_role (enrich_field col f) = f_role f /\
  f_formula (enrich_field col f) = f_formula f.
Proof.
  intros C R. unfold enrich_field. rewrite C. unfold truthy in R.
  destruct (ET.get col "caption") as [c|]; [destruct (PyStr.nonempty c)|];
  (destruct (ET.get col "role") as [r|];
     [destruct (PyStr.nonempty r); [discriminate R|]|]);
  (destruct (ET.get col "datatype") as [t|]; [destruct (PyStr.nonempty t)|]);
  now split.
Qed.

(** The record of a name that is already known, after the column
    definitions: each definition of that name is applied to it in
    turn. *)
Lemma columns_record (name : string) (cols : list Element)
  (d : Dict.t Field) (f0 : Field) :
  PyStr.nonempty name = true ->
  Dict.lookup name d = Some f0 ->
  Dict.lookup name (fold_left add_column cols d)
  = Some (fold_left (fun f c => if named name c then enrich_field c f else f)
                    cols f0).
Proof.
  intros Hn. revert d f0. induction cols as [|c cols IH]; intros d f0 L.
  - exact L.
  - cbn [fold_left]. apply IH. destruct (named name c) eqn:N.
    + unfold named, opt_eqb in N. unfold add_column.
      destruct (ET.get c "name") as [m|]; [|discriminate N].
      apply String.eqb_eq in N. subst m. rewrite Hn, L.
      apply lookup_set_same.
    + now rewrite add_column_other.
Qed.

Lemma redefined_role_formula (name : string) (after : list Element) (f : Field) :
  existsb (overrides name) after = false ->
  let g := fold_left (fun f c => if named name c then enrich_field c f else f)
                     after f in
  f_role g = f_role f /\ f_formula g = f_formula f.
Proof.
  cbv zeta. revert f. induction after as [|c after IH]; intros f H.
  - now split.
  - cbn [existsb] in H. apply orb_false_iff in H as [Hc H].
    cbn [fold_left]. destruct (IH (if named name c then enrich_field c f else f) H)
      as [R F]. rewrite R, F.
    unfold overrides in Hc. destruct (named name c); [|now split].
    cbn [andb] in Hc. apply orb_false_iff in Hc as [Hcalc Hrole].
    apply enrich_field_plain; [|exact Hrole].
    now destruct (ET.find_child "calculation" c).
Qed.

Lemma redefined_datatype (name : string) (cols : list Element) (f0 : Field) :
  f_datatype (fold_left (fun f c => if named name c then enrich_field c f else f)
                        cols f0)
  = match declared_datatype name cols with
    | Some d => capitalize d
    | None => f_datatype f0
    end.
Proof.
  unfold declared_datatype.
  induction cols as [|c cols IH] using rev_ind; [reflexivity|].
  rewrite !fold_left_app. cbn [fold_left].
  destruct (named name c); [|exact IH].
  rewrite enrich_field_datatype.
  destruct (ET.get c "datatype") as [d|]; [|exact IH].
  destruct (PyStr.nonempty d); [reflexivity | exact IH].
Qed.

(** C6, amended.  For a field that the metadata records of a data
    source describe and that a column definition with a calculation
    child names, no later column definition of that name carrying a
    calculation or a role, the record of the field in the data source
    has role ["Calculation"], the formula of the calculation (the empty
    string without one), and the datatype of the metadata pass unless a
    column definition of that name has a non-empty datatype attribute:
    then the last such attribute, as [str.capitalize] returns it,
    replaces it. *)
Theorem calculation_wins (usage_map : UsageMap) (ds col calc : Element)
  (before after : list Element) (caption name_attr : string) (meta : Field) :
  PyStr.nonempty name_attr = true ->
  Dict.lookup name_attr
    (fold_left add_metadata_record (metadata_records ds) []) = Some meta ->
  ET.findall_desc "column" ds = before ++ col :: after ->
  named name_attr col = true ->
  ET.find_child "calculation" col = Some calc ->
  existsb (overrides name_attr) after = false ->
  exists f,
    In f (ds_fields (build_ds_info usage_map ds caption)) /\
    f_tech_name f = name_attr /\
    f_role f = "Calculation" /\
    f_formula f = or_str (ET.get calc "formula") "" /\
    f_datatype f =
      match declared_datatype name_attr (ET.findall_desc "column" ds) with
      | Some d => capitalize d
      | None => f_datatype meta
      end.
Proof.
  intros Hn Hmeta Hcols Hnamed Hcalc Hafter.
  pose proof (columns_record name_attr (ET.findall_desc "column" ds) _ meta
                Hn Hmeta) as L.
  fold (discover_fields ds) in L.
  set (step := fun f c => if named name_attr c then enrich_field c f else f) in *.
  exists (finalize_field usage_map (or_str (ET.get ds "name") "")
            (name_attr, fold_left step (ET.findall_desc "column" ds) meta)).
  split; [|split; [|split; [|split]]].
  - cbn [build_ds_info ds_fields]. apply in_map. now apply lookup_In.
  - cbn [finalize_field f_tech_name].
    exact (keyed_lookup _ _ _ (discover_fields_keyed ds) L).
  - cbn [finalize_field f_role]. rewrite Hcols, fold_left_app. cbn [fold_left].
    rewrite (proj1 (redefined_role_formula name_attr after _ Hafter)).
    unfold step at 1. rewrite Hnamed.
    exact (proj1 (enrich_field_calculation col calc _ Hcalc)).
  - cbn [finalize_field f_formula]. rewrite Hcols, fold_left_app. cbn [fold_left].
    rewrite (proj2 (redefined_role_formula name_attr after _ Hafter)).
    unfold step at 1. rewrite Hnamed.
    exact (proj1 (proj2 (enrich_field_calculation col calc _ Hcalc))).
  - cbn [finalize_field f_datatype]. apply redefined_datatype.
Qed.

End Tables.

(** C6, as stated, fails: the column definition of a calculated field
    that declares a datatype replaces the datatype of the metadata
    record ([string] becomes [Real]); and a later column definition of
    the same name replaces the role. *)
Lemma datatype_retained_counterexample :
  option_map f_datatype
    (Dict.lookup "[Margin]"
       (fold_left add_metadata_record
                  (metadata_records Samples.margin_datasource) []))
  = Some "string" /\
  option_map (fun f => (f_role f, f_datatype f))
    (Dict.lookup "[Margin]"
       (discover_fields (tables := ascii_tables) Samples.margin_datasource))
  = Some ("Calculation", "Real") /\
  option_map f_datatype
    (Dict.lookup "[Margin]"
       (discover_fields (tables := ascii_tables) Samples.margin_datasource))
  <> Some "string" /\
  option_map f_role
    (Dict.lookup "[Margin]"
       (discover_fields (tables := ascii_tables)
                        Samples.margin_datasource_redefined))
  = Some "Dimension".
Proof. repeat split; try reflexivity. discriminate. Qed.

Lemma calculation_wins_witness :
  exists f,
    In f (ds_fields (build_ds_info (tables := ascii_tables) []
                                   Samples.margin_datasource_retyped "Orders")) /\
    f_tech_name f = "[Margin]" /\
    f_role f = "Calculation" /\
    f_formula f = "[Profit]/[Sales]" /\
    f_datatype f = "Integer".
Proof.
  apply (calculation_wins (tables := ascii_tables) []
           Samples.margin_datasource_retyped
           Samples.margin_column_untyped
           (mkElement "calculation"
              [("class", "tableau"); ("formula", "[Profit]/[Sales]")] None [])
           [Samples.margin_column_typed] []
           "Orders" "[Margin]"
           (mkField "[Margin]" "Margin" "" "string" "" "")).
  - reflexivity.
  - reflexivity.
  - reflexivity.
  - reflexivity.
  - reflexivity.
  - reflexivity.
Defined.

End FieldFacts.

(* ================================================================== *)
(** * The usage string *)
(* ================================================================== *)

Module RenderFacts.
Import DictFacts.

(** *** [sorted] *)

Lemma insert_sorted_perm (x : string) (l : list string) :
  Permutation (x :: l) (insert_sorted x l).
Proof.
  induction l as [|y l IH]; cbn; [reflexivity|].
  destruct (String.leb x y); [reflexivity|].
  rewrite perm_swap. now constructor.
Qed.

Lemma sorted_perm (l : list string) : Permutation l (sorted l).
Proof.
  induction l as [|x l IH]; cbn; [constructor|].
  rewrite <- insert_sorted_perm. now constructor.
Qed.

Lemma insert_sorted_Sorted (x : string) (l : list string) :
  Sorted str_le l -> Sorted str_le (insert_sorted x l).
Proof.
  induction l as [|y l IH]; intros S; cbn.
  - repeat constructor.
  - destruct (String.leb x y) eqn:E.
    + constructor; [exact S | now constructor].
    + inversion S as [|? ? S' H]; subst.
      assert (str_le y x) as Hyx.
      { destruct (String.leb_total x y) as [T|T]; [congruence | exact T]. }
      constructor; [now apply IH|].
      destruct l as [|z l]; cbn.
      * now constructor.
      * destruct (String.leb x z); constructor; [exact Hyx|].
        now inversion H.
Qed.

Lemma sorted_Sorted (l : list string) : Sorted str_le (sorted l).
Proof.
  induction l as [|x l IH]; cbn; [constructor|].
  now apply insert_sorted_Sorted.
Qed.

(** *** Every worksheet of a usage has a role *)

Lemma register_nonempty (um : UsageMap) (f ws r : string) :
  roles_nonempty um -> roles_nonempty (register um f ws r).
Proof.
  intros N. unfold register, roles_nonempty.
  apply (set_Forall (fun per_ws => Forall (fun it => snd it <> []) per_ws));
    [|exact N].
  apply (set_Forall (fun roles => roles <> [])).
  - now destruct (Dict.get_default ws [] (Dict.get_default f [] um)).
  - apply (get_default_Forall
             (fun per_ws => Forall (fun it => snd it <> []) per_ws));
      [constructor | exact N].
Qed.

Lemma build_usage_map_nonempty (root : Element) :
  roles_nonempty (build_usage_map root).
Proof.
  apply UsageFacts.build_usage_map_preserves;
    [intros; now apply register_nonempty | constructor].
Qed.

Lemma add_nonempty (s : PySet.t) (x : string) : PySet.add s x <> [].
Proof.
  unfold PySet.add, PySet.mem.
  destruct (existsb (String.eqb x) s) eqn:E.
  - destruct s; [discriminate E | discriminate].
  - now destruct s.
Qed.

Lemma update_nonempty (s : PySet.t) (xs : list string) :
  xs <> [] -> PySet.update s xs <> [].
Proof.
  destruct xs as [|x xs]; [contradiction|]. intros _.
  unfold PySet.update. cbn [fold_left].
  apply fold_left_invariant; [|apply add_nonempty].
  intros; apply add_nonempty.
Qed.

Lemma collect_usage_nonempty (um : UsageMap) (names : list string) :
  roles_nonempty um ->
  Forall (fun item => snd item <> []) (collect_usage um names).
Proof.
  intros N. unfold collect_usage. apply fold_left_invariant; [|constructor].
  intros info tn F. unfold merge_candidate.
  destruct (Dict.lookup tn um) as [per_ws|] eqn:L; [|exact F].
  apply lookup_In in L. unfold roles_nonempty in N. rewrite Forall_forall in N.
  specialize (N _ L). cbn [snd] in N. clear L.
  revert info F. induction N as [|[ws roles] per_ws Hr N IH]; intros info F.
  - exact F.
  - cbn [fold_left]. apply IH. unfold merge_roles.
    apply (set_Forall (fun v => v <> [])); [|exact F].
    now apply update_nonempty.
Qed.

(** Where every worksheet has a role, the code renders what the
    specification describes. *)
Lemma render_usage_spec_eq (info : Dict.t PySet.t) :
  Forall (fun item => snd item <> []) info ->
  render_usage info = render_usage_spec info.
Proof.
  intros F. unfold render_usage, render_usage_spec. cbv zeta.
  assert (filter (fun item : string * list string => negb (is_nil (snd item)))
                 info = info) as ->.
  { induction F as [|[ws roles] info H F IH]; [reflexivity|].
    cbn [filter snd]. destruct roles; [contradiction|].
    cbn. now rewrite IH. }
  assert (map usage_part info
          = map (fun item : string * list string =>
                   usage_entry_spec (fst item) (sorted (snd item))) info)
    as ->.
  { apply map_ext. now intros [ws roles]. }
  now destruct info.
Qed.

Section Tables.

Context {tables : StrTables}.

(** C7.  The usage string of every field record of a data source is,
    for each worksheet with at least one role, ["<worksheet> (<roles>)"] with the roles in sorted
    order joined by ["/"], the entries joined by [", "], and
    ["Not Used"] when no worksheet has a role; [sorted] puts the roles
    in code-point (alphabetical) order without adding or losing one; and
    the document with worksheet ["Sheet1"] using ["[Sales]"] on the rows
    shelf and in a filter gives the field ["[Sales]"] the usage
    ["Sheet1 (Filter/Row)"]. *)
Theorem usage_string_rendering :
  (forall (root ds : Element) (caption : string),
      let usage_map := build_usage_map root in
      Forall
        (fun f =>
           f_usage f
           = render_usage_spec
               (collect_usage usage_map
                  (tech_names_to_check (or_str (ET.get ds "name") "")
                                       (f_tech_name f))))
        (ds_fields (build_ds_info usage_map ds caption))) /\
  (forall roles : list string,
      Sorted str_le (sorted roles) /\ Permutation roles (sorted roles)) /\
  render_usage [] = "Not Used" /\
  map (fun ds => map (fun f => (f_tech_name f, f_usage f)) (ds_fields ds))
      (datasources (extract Samples.sales_workbook))
  = [[("[Sales]", "Sheet1 (Filter/Row)")]].
Proof.
  split; [|split; [|split]].
  - intros root ds caption. cbv zeta. cbn [build_ds_info ds_fields].
    apply Forall_forall. intros f Hf.
    apply in_map_iff in Hf as ([k v] & <- & Hin).
    pose proof (FieldFacts.discover_fields_keyed ds) as K.
    unfold keyed in K. rewrite Forall_forall in K. specialize (K _ Hin).
    cbn [fst snd] in K. cbn [finalize_field f_usage f_tech_name]. rewrite K.
    unfold field_usage.
    apply render_usage_spec_eq, collect_usage_nonempty,
      build_usage_map_nonempty.
  - intros roles. split; [apply sorted_Sorted | apply sorted_perm].
  - reflexivity.
  - reflexivity.
Qed.

End Tables.

End RenderFacts.

(* ================================================================== *)
(** * Data sources and parameters *)
(* ================================================================== *)

Module DatasourceFacts.

Lemma add_parameters_app (cols : list Element) (params : list string) :
  fold_left add_parameter cols params
  = params ++ flat_map
      (fun col =>
         match py_or (ET.get col "caption") (ET.get col "name") with
         | Some p_name =>
             if PyStr.nonempty p_name then [PyStr.strip "[]" p_name] else []
         | None => []
         end) cols.
Proof.
  revert params. induction cols as [|col cols IH]; intros params; cbn.
  - now rewrite app_nil_r.
  - rewrite IH. unfold add_parameter.
    destruct (py_or (ET.get col "caption") (ET.get col "name")) as [p|];
      [|reflexivity].
    destruct (PyStr.nonempty p); [|reflexivity].
    now rewrite <- app_assoc.
Qed.

Lemma is_parameters_caption (ds : Element) :
  ET.get ds "caption" = Some "Parameters" -> is_parameters ds = true.
Proof. intros H. unfold is_parameters, py_or. now rewrite H. Qed.

Lemma is_parameters_name (ds : Element) (n : string) :
  ET.get ds "name" = Some n -> PyStr.startswith n "Parameters" = true ->
  is_parameters ds = true.
Proof.
  intros H S. unfold is_parameters. rewrite H, S.
  destruct n; [discriminate S|]. cbn. apply orb_true_r.
Qed.

Section Tables.

Context {tables : StrTables}.

(** C8.  A data source whose caption is ["Parameters"], or whose
    technical name starts with ["Parameters"], adds nothing to the
    [datasources] of the result (nor to its worksheets and dashboards);
    the display names of its columns, stripped of their brackets, are
    appended to [parameters], among them the stripped caption of every
    column that has one. *)
Theorem parameters_datasource_redirected (usage_map : UsageMap) (data : Data)
  (ds : Element) :
  ET.get ds "caption" = Some "Parameters" \/
  (exists n, ET.get ds "name" = Some n /\
             PyStr.startswith n "Parameters" = true) ->
  let data' := scan_datasource usage_map data ds in
  datasources data' = datasources data /\
  worksheets data' = worksheets data /\
  dashboards data' = dashboards data /\
  parameters data' = parameters data ++ parameter_names ds /\
  forall col caption,
    In col (ET.findall_desc "column" ds) ->
    ET.get col "caption" = Some caption -> PyStr.nonempty caption = true ->
    In (PyStr.strip "[]" caption) (parameters data').
Proof.
  intros H. cbv zeta.
  assert (is_parameters ds = true) as P.
  { destruct H as [H|(n & H & S)];
      [now apply is_parameters_caption | now apply (is_parameters_name ds n)]. }
  unfold scan_datasource. rewrite P. cbn [datasources worksheets dashboards parameters].
  rewrite add_parameters_app. fold (parameter_names ds).
  repeat split.
  intros col caption I C N. apply in_or_app. right.
  unfold parameter_names. apply in_flat_map. exists col. split; [exact I|].
  unfold py_or, truthy. rewrite C, N, N. now left.
Qed.

End Tables.

Lemma parameters_datasource_redirected_witness :
  let data' := scan_datasource (tables := ascii_tables) []
                 Samples.empty_data Samples.parameters_datasource in
  datasources data' = [] /\
  worksheets data' = [] /\
  dashboards data' = [] /\
  parameters data' = [] ++ parameter_names Samples.parameters_datasource /\
  forall col caption,
    In col (ET.findall_desc "column" Samples.parameters_datasource) ->
    ET.get col "caption" = Some caption -> PyStr.nonempty caption = true ->
    In (PyStr.strip "[]" caption) (parameters data').
Proof.
  apply (parameters_datasource_redirected (tables := ascii_tables)
           [] Samples.empty_data Samples.parameters_datasource).
  left. reflexivity.
Defined.

Section MoreTables.

Context {tables : StrTables}.

(** C10.  A [datasource] element with neither a caption nor a name is
    passed over: the result is what it was before the element. *)
Theorem anonymous_datasource_skipped (usage_map : UsageMap) (data : Data)
  (ds : Element) :
  ET.get ds "caption" = None -> ET.get ds "name" = None ->
  scan_datasource usage_map data ds = data.
Proof.
  intros C N. unfold scan_datasource, is_parameters, py_or. cbv zeta.
  rewrite C, N. reflexivity.
Qed.

End MoreTables.

Lemma anonymous_datasource_skipped_witness :
  scan_datasource (tables := ascii_tables) [] Samples.empty_data
                  Samples.anonymous_datasource
  = Samples.empty_data.
Proof.
  apply (anonymous_datasource_skipped (tables := ascii_tables)); reflexivity.
Defined.

End DatasourceFacts.

(* ================================================================== *)
(** * [parse_twb] and exceptions *)
(* ================================================================== *)

Module ParseFacts.

(** C9, as stated, fails: when the file cannot be loaded and the [print]
    of the handler raises in its turn, [parse_twb] ends with that
    exception instead of returning [None]. *)
Lemma print_failure_propagates :
  parse_twb (tables := ascii_tables)
    (fun _ => Raised (mkException "FileNotFoundError" "No such file"))
    (fun _ => Raised (mkException "UnicodeEncodeError" "cannot encode"))
    "missing.twb"
  = Raised (mkException "UnicodeEncodeError" "cannot encode") /\
  ~ (exists r,
        parse_twb (tables := ascii_tables)
          (fun _ => Raised (mkException "FileNotFoundError" "No such file"))
          (fun _ => Raised (mkException "UnicodeEncodeError" "cannot encode"))
          "missing.twb"
        = Returned r).
Proof. split; [reflexivity | intros [r H]; discriminate H]. Qed.

Section Tables.

Context {tables : StrTables}.

(** C9, amended.  [parse_twb] returns the whole result when the loader
    returns; when the loader raises, the handler prints the error line,
    and [parse_twb] returns [None] if the [print] completes and ends
    with the exception of the [print] if it raises.  So, where the
    [print] completes, [parse_twb] never ends with an exception, and it
    returns [None], and nothing of a result, exactly when an exception
    was raised inside the [try] block. *)
Theorem parse_twb_returns_if_print_does (ET_parse : string -> outcome Element)
  (py_print : string -> outcome unit) (twb_path : string) :
  parse_twb ET_parse py_print twb_path =
    match ET_parse twb_path with
    | Returned root => Returned (Some (extract root))
    | Raised e =>
        match py_print (error_line twb_path e) with
        | Returned _ => Returned None
        | Raised e' => Raised e'
        end
    end /\
  ((forall line, exists u, py_print line = Returned u) ->
   (exists r, parse_twb ET_parse py_print twb_path = Returned r) /\
   parse_twb ET_parse py_print twb_path =
     match parse_twb_try ET_parse twb_path with
     | Returned r => Returned r
     | Raised _ => Returned None
     end).
Proof.
  unfold parse_twb, parse_twb_try, parse_twb_except, try_except, bind.
  split.
  - destruct (ET_parse twb_path) as [root|e]; [reflexivity|].
    now destruct (py_print (error_line twb_path e)).
  - intros P. destruct (ET_parse twb_path) as [root|e]; [eauto|].
    destruct (P (error_line twb_path e)) as [u ->]. eauto.
Qed.

End Tables.

Lemma parse_twb_returns_if_print_does_witness :
  (exists r,
      parse_twb (tables := ascii_tables)
        (fun _ => Raised (mkException "FileNotFoundError" "No such file"))
        (fun _ => Returned tt) "missing.twb"
      = Returned r) /\
  parse_twb (tables := ascii_tables)
    (fun _ => Raised (mkException "FileNotFoundError" "No such file"))
    (fun _ => Returned tt) "missing.twb"
  = Returned None.
Proof.
  apply (proj2 (parse_twb_returns_if_print_does (tables := ascii_tables)
                  (fun _ => Raised (mkException "FileNotFoundError" "No such file"))
                  (fun _ => Returned tt) "missing.twb")).
  intros line. exists tt. reflexivity.
Defined.

End ParseFacts.

(* ================================================================== *)
(** * More on the normalizer *)
(* ================================================================== *)

Module NormalizeMore.
Import PyStr PyStrFacts NormalizeFacts.
Local Open Scope string_scope.

Lemma prefix_nil (s : string) : String.prefix "" s = true.
Proof. now destruct s. Qed.

(** For a one-character separator, occurrence distributes over
    concatenation. *)
Lemma contains_char_app (c : ascii) (a b : string) :
  contains (String c "") (a ++ b)
  = contains (String c "") a || contains (String c "") b.
Proof.
  induction a as [|x a IH]; [reflexivity|].
  cbn [append contains String.prefix]. rewrite IH, !prefix_nil.
  now rewrite orb_assoc.
Qed.

Lemma wrap_no_colon (n : string) :
  contains ":" n = false -> contains ":" (wrap n) = false.
Proof.
  intros H. unfold wrap.
  rewrite (contains_char_app ":" "[" (n ++ "]")), (contains_char_app ":" n "]").
  now rewrite H.
Qed.

Lemma join_no_colon (pieces : list string) :
  Forall (fun p => contains ":" p = false) pieces ->
  contains ":" (join "." pieces) = false.
Proof.
  unfold join. induction pieces as [|p [|q rest] IH]; intros F.
  - reflexivity.
  - now inversion F.
  - inversion F as [|? ? Hp F']; subst.
    change (String.concat "." (p :: q :: rest))
      with (p ++ "." ++ String.concat "." (q :: rest)).
    rewrite (contains_char_app ":" p), (contains_char_app ":" "."), Hp.
    now rewrite (IH F').
Qed.

Lemma last_char_app (a : string) (c : ascii) :
  last_char (a ++ String c "") = Some c.
Proof.
  induction a as [|x a IH]; [reflexivity|].
  cbn [append last_char]. rewrite IH. now destruct a.
Qed.

(** The names kept for the segments of a reference. *)
Lemma normalize_names (c : ascii) (r : string) :
  normalize_field_ref (String c r)
  = join "." (map wrap (map clean_segment (split "].[" (String c r)))).
Proof. unfold normalize_field_ref. cbn [nonempty]. now rewrite map_map. Qed.

Lemma names_not_nil (x : string) : map clean_segment (split "].[" x) <> [].
Proof.
  pose proof (split_not_nil "].[" x).
  destruct (split "].[" x); [contradiction | discriminate].
Qed.

Lemma names_no_delimiter (x : string) :
  Forall (fun n => contains "].[" n = false)
         (map clean_segment (split "].[" x)).
Proof.
  apply Forall_forall. intros n Hn.
  apply in_map_iff in Hn as (part & <- & Hp).
  apply clean_segment_no_delimiter.
  now apply (split_pieces_nosep "].[" delimiter_nonempty x).
Qed.

(** An id made of names that are already clean is normalized to
    itself. *)
Lemma normalize_joined (names : list string) :
  names <> [] ->
  Forall (fun n => strip "[]" n = n /\ contains ":" n = false) names ->
  Forall (fun n => contains "].[" n = false) names ->
  normalize_field_ref (join "." (map wrap names)) = join "." (map wrap names).
Proof.
  intros N F D.
  assert (nonempty (join "." (map wrap names)) = true) as Y.
  { now rewrite (join_wrap _ N). }
  unfold normalize_field_ref. rewrite Y.
  rewrite <- (map_map clean_segment wrap).
  now rewrite (split_normalized _ N D), (clean_reopened _ N F).
Qed.

Lemma normalize_no_colon (x : string) :
  contains ":" (normalize_field_ref x) = false.
Proof.
  destruct x as [|c r]; [reflexivity|].
  rewrite normalize_names. apply join_no_colon.
  apply Forall_forall. intros w Hw.
  apply in_map_iff in Hw as (n & <- & Hn).
  apply in_map_iff in Hn as (part & <- & _).
  apply wrap_no_colon, clean_segment_no_colon.
Qed.

Lemma normalize_first_last (c : ascii) (r : string) :
  first_char (normalize_field_ref (String c r)) = Some "["%char /\
  last_char (normalize_field_ref (String c r)) = Some "]"%char.
Proof.
  rewrite normalize_names, (join_wrap _ (names_not_nil _)). split.
  - reflexivity.
  - set (body := join "].[" _).
    change ("[" ++ body ++ "]") with (String "[" body ++ "]").
    apply last_char_app.
Qed.

(** X1.  A normalized reference holds no colon: every derivation and
    type tag is gone, whatever the reference. *)
Theorem normalize_drops_colons (x : string) :
  contains ":" (normalize_field_ref x) = false.
Proof. exact (normalize_no_colon x). Qed.

(** X2.  A non-empty reference and its normalized form have the same
    number of ["].["]-delimited segments. *)
Theorem normalize_keeps_segment_count (c : ascii) (r : string) :
  List.length (split "].[" (normalize_field_ref (String c r)))
  = List.length (split "].[" (String c r)).
Proof.
  rewrite normalize_names.
  rewrite (split_normalized _ (names_not_nil _) (names_no_delimiter _)).
  pose proof (names_not_nil (String c r)) as N.
  rewrite <- (length_map clean_segment (split "].[" (String c r))).
  generalize dependent (map clean_segment (split "].[" (String c r))).
  intros names N. clear c r.
  assert (List.length (close_last names) = List.length names) as L.
  { clear N. induction names as [|n [|n' rest] IH]; try reflexivity.
    change (close_last (n :: n' :: rest)) with (n :: close_last (n' :: rest)).
    cbn [List.length]. now rewrite IH. }
  destruct names as [|n rest]; [contradiction|].
  destruct (close_last (n :: rest)) as [|h t] eqn:E; [discriminate L|].
  exact L.
Qed.

(** X3.  The normalized form of a non-empty reference begins with ["["]
    and ends with ["]"]. *)
Theorem normalize_bracketed (c : ascii) (r : string) :
  first_char (normalize_field_ref (String c r)) = Some "["%char /\
  last_char (normalize_field_ref (String c r)) = Some "]"%char.
Proof. exact (normalize_first_last c r). Qed.

(** X4.  An id whose bracketed names are clean (no bracket at either
    end, no colon, no ["].["] inside) is a fixed point of the
    normalizer. *)
Theorem clean_id_is_fixed (names : list string) :
  names <> [] ->
  Forall (fun n => strip "[]" n = n /\ contains ":" n = false /\
                   contains "].[" n = false) names ->
  normalize_field_ref (join "." (map wrap names)) = join "." (map wrap names).
Proof.
  intros N F. apply normalize_joined; [exact N | |].
  - eapply Forall_impl; [|exact F]. cbn. intros n (S & C & _). now split.
  - eapply Forall_impl; [|exact F]. cbn. now intros n (_ & _ & D).
Qed.

Lemma clean_id_is_fixed_witness :
  normalize_field_ref (join "." (map wrap ["Datasource"; "Field"]))
  = join "." (map wrap ["Datasource"; "Field"]).
Proof.
  apply clean_id_is_fixed.
  - discriminate.
  - repeat constructor.
Defined.

(** X5.  On a reference without any colon the normalizer is
    idempotent. *)
Theorem normalize_idempotent_without_tags (x : string) :
  contains ":" x = false ->
  normalize_field_ref (normalize_field_ref x) = normalize_field_ref x.
Proof.
  intros C. destruct x as [|c r]; [reflexivity|].
  rewrite normalize_names.
  apply normalize_joined;
    [apply names_not_nil | | apply names_no_delimiter].
  apply Forall_forall. intros n Hn.
  apply in_map_iff in Hn as (part & <- & Hp).
  split; [|apply clean_segment_no_colon].
  destruct (split_pieces "].[" delimiter_nonempty _ _ Hp) as (a & b & E).
  assert (contains ":" part = false) as Cp.
  { apply (contains_part ":" colon_nonempty a part b). now rewrite <- E. }
  destruct (strip_split "[]" part) as (pre & suf & E').
  assert (contains ":" (strip "[]" part) = false) as Cs.
  { apply (contains_part ":" colon_nonempty pre _ suf). now rewrite <- E'. }
  rewrite (clean_segment_of_strip part _ eq_refl Cs).
  apply strip_idempotent.
Qed.

Lemma normalize_idempotent_without_tags_witness :
  normalize_field_ref (normalize_field_ref "[[Orders]].[Sales]")
  = normalize_field_ref "[[Orders]].[Sales]".
Proof.
  apply normalize_idempotent_without_tags. reflexivity.
Defined.

End NormalizeMore.

(* ================================================================== *)
(** * More on the usage map and the name lists *)
(* ================================================================== *)

Module UsageMore.
Import DictFacts.

Lemma set_Forall_item {V} (Q : string * V -> Prop) (k : string) (v : V)
  (d : Dict.t V) :
  Q (k, v) -> Forall Q d -> Forall Q (Dict.set k v d).
Proof.
  intros Hv F. induction F as [|[k' v'] d H F IH]; cbn.
  - now constructor.
  - destruct (String.eqb k k') eqn:E; constructor; try assumption.
    apply String.eqb_eq in E. now subst k'.
Qed.

Lemma usage_from_more (names more : list string) (um : UsageMap) :
  usage_from names um -> usage_from (names ++ more) um.
Proof.
  unfold usage_from. intros F.
  eapply Forall_impl; [|exact F]. cbn. intros [f per_ws] [K W]. split; [exact K|].
  eapply Forall_impl; [|exact W]. cbn. intros [ws roles] [I R].
  split; [apply in_or_app; now left | exact R].
Qed.

Lemma register_from (names : list string) (um : UsageMap)
  (raw ws r : string) :
  PyStr.nonempty raw = true -> In ws names -> In r role_tags ->
  usage_from names um ->
  usage_from names (register um (normalize_field_ref raw) ws r).
Proof.
  intros Hraw Hws Hr F. unfold register, usage_from.
  set (f := normalize_field_ref raw).
  assert (Forall (fun per_ws : string * list string =>
                    In (fst per_ws) names /\
                    Forall (fun r => In r role_tags) (snd per_ws))
                 (Dict.get_default f [] um)) as W.
  { apply (get_default_Forall
               (fun per_ws : Dict.t (list string) =>
                  Forall (fun it : string * list string =>
                            In (fst it) names /\
                            Forall (fun r => In r role_tags) (snd it)) per_ws));
      [constructor|].
    eapply Forall_impl; [|exact F]. cbn. now intros [k v] [_ W]. }
  apply set_Forall_item; [|exact F]. cbn [fst snd]. split.
  - exists raw. now split.
  - apply set_Forall_item; [|exact W]. cbn [fst snd]. split; [exact Hws|].
    apply Forall_app. split; [|constructor; [exact Hr | constructor]].
    apply (get_default_Forall (fun roles => Forall (fun r => In r role_tags) roles));
      [apply Forall_nil|].
    eapply Forall_impl; [|exact W]. cbn. now intros [k v] [_ R].
Qed.

Lemma worksheet_usage_from (names : list string) (w : Element)
  (ws_name : string) (um : UsageMap) :
  In ws_name names -> usage_from names um ->
  usage_from names (worksheet_usage w ws_name um).
Proof.
  intros Hws F. unfold worksheet_usage. cbv zeta.
  assert (forall shelf role um0, In role role_tags -> usage_from names um0 ->
            usage_from names (register_shelf shelf ws_name role um0)) as Hshelf.
  { intros shelf role um0 Hr F0. unfold register_shelf.
    destruct shelf as [node|]; [|exact F0].
    destruct (ET.text node) as [txt|]; [|exact F0].
    destruct (PyStr.nonempty txt); [|exact F0].
    apply fold_left_invariant; [|exact F0].
    intros um1 tok F1. unfold register_token. cbv zeta.
    destruct (PyStr.nonempty (PyStr.strip "()" tok)) eqn:E; [|exact F1].
    now apply register_from. }
  apply fold_left_invariant.
  { intros um1 node F1. unfold register_slice.
    destruct (ET.text node) as [t|]; [|exact F1].
    destruct (PyStr.nonempty t) eqn:E; [|exact F1].
    apply register_from; auto. cbn. tauto. }
  apply fold_left_invariant.
  { intros um1 node F1. unfold register_filter.
    destruct (ET.get node "column") as [t|]; [|exact F1].
    destruct (PyStr.nonempty t) eqn:E; [|exact F1].
    apply register_from; auto. cbn. tauto. }
  apply Hshelf; [cbn; tauto|]. apply Hshelf; [cbn; tauto | exact F].
Qed.

Lemma scan_worksheets_from (root : Element) :
  usage_from (fst (scan_worksheets root)) (snd (scan_worksheets root)).
Proof.
  unfold scan_worksheets.
  apply (fold_left_invariant (fun st => usage_from (fst st) (snd st)));
    [|constructor].
  intros [names um] ws F. cbn [fst snd] in F. unfold scan_worksheet.
  destruct (ET.get ws "name") as [n|]; [|exact F].
  destruct (PyStr.nonempty n); [|exact F].
  cbn [fst snd]. apply worksheet_usage_from.
  - apply in_or_app. right. now left.
  - now apply usage_from_more.
Qed.

Section Tables.

Context {tables : StrTables}.

(** The data sources leave the worksheet and dashboard lists alone. *)
Lemma scan_datasource_lists (um : UsageMap) (data : Data) (ds : Element) :
  worksheets (scan_datasource um data ds) = worksheets data /\
  dashboards (scan_datasource um data ds) = dashboards data.
Proof.
  unfold scan_datasource. cbv zeta.
  destruct (is_parameters ds); [now split|].
  destruct (py_or _ _) as [cap|]; [|now split].
  destruct (PyStr.nonempty cap); [|now split].
  destruct (_ && _); now split.
Qed.

Lemma extract_lists (root : Element) :
  worksheets (extract root) = fst (scan_worksheets root) /\
  dashboards (extract root) = scan_dashboards root.
Proof.
  unfold extract. destruct (scan_worksheets root) as [names um]. cbn [fst].
  apply (fold_left_invariant
           (fun d => worksheets d = names /\ dashboards d = scan_dashboards root));
    [|now split].
  intros d ds [W D]. destruct (scan_datasource_lists um d ds) as [W' D'].
  split; congruence.
Qed.

Lemma registered_from (names : list string) (um : UsageMap)
  (f ws r : string) :
  usage_from names um -> registered um f ws r ->
  In ws names /\ In r role_tags.
Proof.
  intros F (per_ws & roles & L1 & L2 & I).
  apply lookup_In in L1. apply lookup_In in L2.
  unfold usage_from in F. rewrite Forall_forall in F.
  destruct (F _ L1) as [_ W]. cbn [snd] in W.
  rewrite Forall_forall in W. destruct (W _ L2) as [Hws R]. cbn [fst snd] in *.
  rewrite Forall_forall in R. split; [exact Hws | exact (R _ I)].
Qed.

Lemma scan_worksheets_names (l : list Element) (st : list string * UsageMap) :
  fst (fold_left scan_worksheet l st) = fst st ++ names_of l.
Proof.
  revert st. induction l as [|w l IH]; intros st; cbn [fold_left names_of flat_map].
  - now rewrite app_nil_r.
  - rewrite IH. unfold scan_worksheet.
    destruct (ET.get w "name") as [n|]; [|reflexivity].
    destruct (PyStr.nonempty n); [|reflexivity].
    cbn [fst]. now rewrite <- app_assoc.
Qed.

Lemma scan_dashboards_names (l : list Element) (acc : list string) :
  fold_left scan_dashboard l acc = acc ++ names_of l.
Proof.
  revert acc. induction l as [|w l IH]; intros acc; cbn [fold_left names_of flat_map].
  - now rewrite app_nil_r.
  - rewrite IH. unfold scan_dashboard.
    destruct (ET.get w "name") as [n|]; [|reflexivity].
    destruct (PyStr.nonempty n); [|reflexivity].
    now rewrite <- app_assoc.
Qed.

(** X6.  The only roles the usage map ever holds are ["Row"],
    ["Column"] and ["Filter"]. *)
Theorem only_tracked_roles (root : Element) (field ws_name role : string) :
  registered (build_usage_map root) field ws_name role ->
  role = "Row" \/ role = "Column" \/ role = "Filter".
Proof.
  intros R.
  destruct (registered_from _ _ _ _ _ (scan_worksheets_from root) R) as [_ H].
  cbn in H. intuition congruence.
Qed.

(** X7.  A worksheet under which the usage map holds a role is one of
    the worksheets of the result. *)
Theorem usage_worksheets_listed (root : Element) (field ws_name role : string) :
  registered (build_usage_map root) field ws_name role ->
  In ws_name (worksheets (extract root)).
Proof.
  intros R. rewrite (proj1 (extract_lists root)).
  exact (proj1 (registered_from _ _ _ _ _ (scan_worksheets_from root) R)).
Qed.

(** X8.  Every key of the usage map is a normalized id: it begins with
    ["["], ends with ["]"] and holds no colon. *)
Theorem usage_keys_canonical (root : Element) (field : string)
  (per_ws : Dict.t (list string)) :
  Dict.lookup field (build_usage_map root) = Some per_ws ->
  first_char field = Some "["%char /\
  last_char field = Some "]"%char /\
  PyStr.contains ":" field = false.
Proof.
  intros L. apply lookup_In in L.
  pose proof (scan_worksheets_from root) as F.
  unfold usage_from in F. rewrite Forall_forall in F.
  destruct (F _ L) as [(raw & Hraw & E) _]. cbn [fst] in E. subst field.
  destruct raw as [|c r]; [discriminate Hraw|].
  destruct (NormalizeMore.normalize_first_last c r) as [H1 H2].
  repeat split; try assumption.
  apply NormalizeMore.normalize_no_colon.
Qed.

(** X9.  The worksheets and the dashboards of the result are the
    non-empty [name] attributes of the [worksheet] and [dashboard]
    elements, in document order, whatever the data sources are. *)
Theorem names_listed (root : Element) :
  worksheets (extract root) = names_of (ET.findall_desc "worksheet" root) /\
  dashboards (extract root) = names_of (ET.findall_desc "dashboard" root).
Proof.
  destruct (extract_lists root) as [W D]. rewrite W, D. split.
  - unfold scan_worksheets. now rewrite scan_worksheets_names.
  - unfold scan_dashboards. now rewrite scan_dashboards_names.
Qed.

End Tables.

Lemma only_tracked_roles_witness :
  "Row" = "Row" \/ "Row" = "Column" \/ "Row" = "Filter".
Proof.
  apply (only_tracked_roles
           (Samples.workbook_with_rows "(sum(Sales))/[Region]")
           "[Region]" "Sheet1" "Row").
  exists [("Sheet1", ["Row"])], ["Row"].
  split; [reflexivity | split; [reflexivity | simpl; left; reflexivity]].
Defined.

Lemma usage_worksheets_listed_witness :
  In "Sheet1"
     (worksheets (extract (tables := ascii_tables)
                          (Samples.workbook_with_rows "(sum(Sales))/[Region]"))).
Proof.
  apply (usage_worksheets_listed (tables := ascii_tables)
           (Samples.workbook_with_rows "(sum(Sales))/[Region]")
           "[Region]" "Sheet1" "Row").
  exists [("Sheet1", ["Row"])], ["Row"].
  split; [reflexivity | split; [reflexivity | simpl; left; reflexivity]].
Defined.

Lemma usage_keys_canonical_witness :
  first_char "[Region]" = Some "["%char /\
  last_char "[Region]" = Some "]"%char /\
  PyStr.contains ":" "[Region]" = false.
Proof.
  apply (usage_keys_canonical
           (Samples.workbook_with_rows "(sum(Sales))/[Region]")
           "[Region]" [("Sheet1", ["Row"])]).
  reflexivity.
Defined.

End UsageMore.

(* ================================================================== *)
(** * More on the data sources *)
(* ================================================================== *)

Module CatalogMore.
Import DictFacts.

Section Tables.

Context {tables : StrTables}.

(** What holds of every data source that is built and kept holds of
    every data source of the result. *)
Lemma extract_datasources_Forall (Q : DataSource -> Prop) (root : Element) :
  (forall um ds cap,
      is_parameters ds = false ->
      py_or (ET.get ds "caption") (ET.get ds "name") = Some cap ->
      PyStr.nonempty cap = true ->
      is_nil (ds_connections (build_ds_info um ds cap))
      && is_nil (ds_queries (build_ds_info um ds cap))
      && is_nil (ds_fields (build_ds_info um ds cap)) = false ->
      Q (build_ds_info um ds cap)) ->
  Forall Q (datasources (extract root)).
Proof.
  intros H. unfold extract. destruct (scan_worksheets root) as [names um].
  apply (fold_left_invariant (fun d => Forall Q (datasources d)));
    [|constructor].
  intros d ds F. unfold scan_datasource. cbv zeta.
  destruct (is_parameters ds) eqn:P; [exact F|].
  destruct (py_or _ _) as [cap|] eqn:C; [|exact F].
  destruct (PyStr.nonempty cap) eqn:N; [|exact F].
  destruct (_ && _) eqn:E; [exact F|].
  cbn [datasources]. apply Forall_app. split; [exact F|].
  constructor; [|constructor]. now apply H.
Qed.

(** *** Connections *)

Lemma connections_not_federated (conns : list Element) :
  Forall (fun c => conn_class c <> "federated" /\ conn_class c <> "")
         (fold_left add_connection conns []).
Proof.
  apply fold_left_invariant; [|constructor].
  intros acc conn F. unfold add_connection.
  destruct (ET.get conn "class") as [cls|]; [|exact F].
  destruct (PyStr.nonempty cls) eqn:N; [|exact F].
  destruct (String.eqb cls "federated") eqn:E; [exact F|].
  cbn [andb negb]. apply Forall_app. split; [exact F|].
  constructor; [|constructor]. cbn [conn_class]. split.
  - now apply String.eqb_neq.
  - intros ->. discriminate N.
Qed.

(** X10.  No data source of the result lists a connection of class
    [federated], or one without a class. *)
Theorem federated_connections_excluded (root : Element) :
  Forall (fun d =>
            Forall (fun c => conn_class c <> "federated" /\ conn_class c <> "")
                   (ds_connections d))
         (datasources (extract root)).
Proof.
  apply extract_datasources_Forall. intros um ds cap _ _ _ _.
  cbn [build_ds_info ds_connections]. apply connections_not_federated.
Qed.

(** X11.  Every data source of the result has a non-empty display name
    and at least one connection, query or field. *)
Theorem datasources_have_content (root : Element) :
  Forall (fun d =>
            ds_name d <> "" /\
            (ds_connections d <> [] \/ ds_queries d <> [] \/ ds_fields d <> []))
         (datasources (extract root)).
Proof.
  apply extract_datasources_Forall. intros um ds cap _ _ N E. split.
  - cbn [build_ds_info ds_name]. intros ->. discriminate N.
  - destruct (ds_connections (build_ds_info um ds cap)) eqn:C;
      [|left; discriminate].
    destruct (ds_queries (build_ds_info um ds cap)) eqn:Q;
      [|right; left; discriminate].
    destruct (ds_fields (build_ds_info um ds cap)) eqn:F;
      [discriminate E | right; right; discriminate].
Qed.

(** X12.  No data source of the result is the parameter container: its
    display name is not ["Parameters"] and its technical name does not
    start with ["Parameters"]. *)
Theorem parameters_never_a_datasource (root : Element) :
  Forall (fun d =>
            ds_name d <> "Parameters" /\
            forall n, ds_tech_name d = Some n ->
                      PyStr.startswith n "Parameters" = false)
         (datasources (extract root)).
Proof.
  apply extract_datasources_Forall. intros um ds cap P C _ _.
  unfold is_parameters in P. cbv zeta in P. rewrite C in P.
  apply orb_false_iff in P as [P1 P2]. cbn [opt_eqb] in P1.
  cbn [build_ds_info ds_name ds_tech_name]. split.
  - now apply String.eqb_neq.
  - intros n Hn. rewrite Hn in P2.
    destruct n as [|c r]; [reflexivity | exact P2].
Qed.

(** *** Queries *)



(** *** The usage string *)

Lemma last_char_cons (x : ascii) (s : string) :
  s <> EmptyString -> last_char (String x s) = last_char s.
Proof. destruct s; [contradiction | reflexivity]. Qed.

Lemma last_char_app_r (a b : string) :
  b <> EmptyString -> last_char (a ++ b)%string = last_char b.
Proof.
  intros N. induction a as [|x a IH]; [reflexivity|].
  cbn [append]. rewrite last_char_cons; [exact IH|].
  destruct a; [exact N | discriminate].
Qed.

Lemma usage_part_last (item : string * PySet.t) :
  last_char (usage_part item) = Some ")"%char.
Proof.
  destruct item as [ws roles]. unfold usage_part.
  rewrite last_char_app_r by discriminate.
  set (j := PyStr.join "/" (sorted roles)).
  change (" (" ++ j ++ ")")%string
    with (String " " (String "(" (j ++ ")")))%string.
  assert ((j ++ ")")%string <> EmptyString) as N by (destruct j; discriminate).
  rewrite !last_char_cons; try exact N; try discriminate.
  apply NormalizeMore.last_char_app.
Qed.

Lemma joined_parts_last (info : Dict.t PySet.t) :
  info <> [] ->
  last_char (PyStr.join ", " (map usage_part info)) = Some ")"%char.
Proof.
  unfold PyStr.join. induction info as [|x [|y rest] IH]; intros N.
  - contradiction.
  - apply usage_part_last.
  - change (String.concat ", " (map usage_part (x :: y :: rest)))
      with (usage_part x ++ ", " ++
            String.concat ", " (map usage_part (y :: rest)))%string.
    assert (last_char (String.concat ", " (map usage_part (y :: rest)))
            = Some ")"%char) as L by (apply IH; discriminate).
    assert (String.concat ", " (map usage_part (y :: rest)) <> EmptyString) as Z.
    { intros E. rewrite E in L. discriminate L. }
    rewrite last_char_app_r by discriminate.
    change (", " ++ ?t)%string with (String "," (String " " t)).
    rewrite !last_char_cons; try exact Z; try discriminate. exact L.
Qed.

(** A usage string is ["Not Used"] or ends with a closing parenthesis. *)
Lemma render_usage_cases (info : Dict.t PySet.t) :
  (info = [] /\ render_usage info = "Not Used") \/
  (info <> [] /\ last_char (render_usage info) = Some ")"%char).
Proof.
  destruct info as [|x rest]; [left; now split|]. right.
  split; [discriminate|]. unfold render_usage. cbv zeta.
  change (map usage_part (x :: rest))
    with (usage_part x :: map usage_part rest).
  cbv iota. change (usage_part x :: map usage_part rest)
    with (map usage_part (x :: rest)).
  apply joined_parts_last. discriminate.
Qed.

Lemma field_usage_nonempty (um : UsageMap) (pre tech : string) :
  field_usage um pre tech <> "".
Proof.
  unfold field_usage.
  destruct (render_usage_cases
              (collect_usage um (tech_names_to_check pre tech)))
    as [[_ E]|[_ L]]; intros Z; rewrite Z in *; discriminate.
Qed.

(** X14.  Every field of the result has a non-empty usage string. *)
Theorem usage_never_empty (root : Element) :
  Forall (fun d => Forall (fun f => f_usage f <> "") (ds_fields d))
         (datasources (extract root)).
Proof.
  apply extract_datasources_Forall. intros um ds cap _ _ _ _.
  cbn [build_ds_info ds_fields]. apply Forall_forall. intros f Hf.
  apply in_map_iff in Hf as ([k v] & <- & _).
  cbn [finalize_field f_usage]. apply field_usage_nonempty.
Qed.

Lemma set_not_nil {V} (k : string) (v : V) (d : Dict.t V) : Dict.set k v d <> [].
Proof. destruct d as [|[k' v'] d]; cbn; [|destruct (String.eqb k k')]; discriminate. Qed.

Lemma merge_roles_not_nil (info : Dict.t PySet.t) (item : string * list string) :
  merge_roles info item <> [].
Proof. destruct item. apply set_not_nil. Qed.

Lemma merge_candidate_keeps (um : UsageMap) (info : Dict.t PySet.t) (tn : string) :
  info <> [] -> merge_candidate um info tn <> [].
Proof.
  intros N. unfold merge_candidate.
  destruct (Dict.lookup tn um) as [per_ws|]; [|exact N].
  apply fold_left_invariant; [|exact N].
  intros; apply merge_roles_not_nil.
Qed.

Lemma collect_without_candidate (um : UsageMap) (names : list string)
  (info : Dict.t PySet.t) :
  no_candidate um names = true ->
  fold_left (merge_candidate um) names info = info.
Proof.
  revert info. induction names as [|tn rest IH]; intros info H; [reflexivity|].
  cbn [no_candidate forallb] in H. apply andb_true_iff in H as [H1 H2].
  cbn [fold_left]. unfold merge_candidate at 2.
  destruct (Dict.lookup tn um); [discriminate H1|]. now apply IH.
Qed.

Lemma collect_with_candidate (um : UsageMap) (names : list string)
  (info : Dict.t PySet.t) :
  Forall (fun item => snd item <> []) um ->
  no_candidate um names = false ->
  fold_left (merge_candidate um) names info <> [].
Proof.
  intros F. revert info. induction names as [|tn rest IH]; intros info H;
    [discriminate H|].
  cbn [no_candidate forallb] in H. cbn [fold_left].
  destruct (Dict.lookup tn um) as [per_ws|] eqn:L.
  - apply fold_left_invariant; [intros; now apply merge_candidate_keeps|].
    unfold merge_candidate. rewrite L.
    apply lookup_In in L. rewrite Forall_forall in F. specialize (F _ L).
    cbn [snd] in F. destruct per_ws as [|it tl]; [contradiction|].
    cbn [fold_left]. apply fold_left_invariant;
      [intros; apply merge_roles_not_nil | apply merge_roles_not_nil].
  - cbn [andb] in H. unfold merge_candidate at 2. rewrite L. now apply IH.
Qed.

Lemma build_usage_map_inner_nonempty (root : Element) :
  Forall (fun item => snd item <> []) (build_usage_map root).
Proof.
  apply (UsageFacts.build_usage_map_preserves
           (fun um => Forall (fun item => snd item <> []) um)); [|constructor].
  intros um f ws r F. unfold register.
  apply (set_Forall (fun per_ws : Dict.t (list string) => per_ws <> [])); [|exact F].
  apply set_not_nil.
Qed.

(** X15.  A field is reported ["Not Used"] exactly when none of its
    candidate names is a key of the usage map of the document. *)
Theorem not_used_iff_no_candidate (root : Element) (ds_tech_prefix tech_name : string) :
  String.eqb (field_usage (build_usage_map root) ds_tech_prefix tech_name)
             "Not Used"
  = no_candidate (build_usage_map root)
                 (tech_names_to_check ds_tech_prefix tech_name).
Proof.
  unfold field_usage, collect_usage.
  set (um := build_usage_map root).
  set (names := tech_names_to_check ds_tech_prefix tech_name).
  destruct (no_candidate um names) eqn:C.
  - now rewrite (collect_without_candidate _ _ _ C).
  - pose proof (collect_with_candidate um names []
                  (build_usage_map_inner_nonempty root) C) as N.
    destruct (render_usage_cases (fold_left (merge_candidate um) names []))
      as [[E _]|[_ L]]; [contradiction|].
    apply String.eqb_neq. intros Z. rewrite Z in L. discriminate L.
Qed.

(** *** The field records *)

Lemma set_keys_In {V} (k k' : string) (v : V) (d : Dict.t V) :
  In k' (map fst (Dict.set k v d)) -> k' = k \/ In k' (map fst d).
Proof.
  induction d as [|[k0 v0] d IH]; cbn.
  - intros [<-|[]]. now left.
  - destruct (String.eqb k k0); cbn; intros [<-|H]; auto.
    destruct (IH H); auto.
Qed.

Lemma set_keys_NoDup {V} (k : string) (v : V) (d : Dict.t V) :
  NoDup (map fst d) -> NoDup (map fst (Dict.set k v d)).
Proof.
  induction d as [|[k0 v0] d IH]; cbn; intros N.
  - repeat constructor. intros [].
  - inversion N as [|? ? Hn N']; subst.
    destruct (String.eqb k k0) eqn:E; cbn; [now constructor|].
    constructor; [|now apply IH].
    intros H. destruct (set_keys_In _ _ _ _ H) as [->|H']; [|contradiction].
    rewrite String.eqb_refl in E. discriminate E.
Qed.

(** The keys of [fields_by_tech] are distinct and non-empty. *)
Lemma discover_fields_keys (ds : Element) :
  NoDup (map fst (discover_fields ds)) /\
  Forall (fun item => fst item <> "") (discover_fields ds).
Proof.
  unfold discover_fields. cbv zeta.
  apply (fold_left_invariant
           (fun d : Dict.t Field =>
              NoDup (map fst d) /\ Forall (fun item => fst item <> "") d)).
  { intros d col [N F]. unfold add_column.
    destruct (ET.get col "name") as [n|]; [|now split].
    destruct (PyStr.nonempty n) eqn:E; [|now split].
    split; [now apply set_keys_NoDup|].
    apply UsageMore.set_Forall_item; [|exact F].
    cbn. intros ->. discriminate E. }
  apply (fold_left_invariant
           (fun d : Dict.t Field =>
              NoDup (map fst d) /\ Forall (fun item => fst item <> "") d)).
  { intros d mr [N F]. unfold add_metadata_record.
    destruct (ET.findtext "local-name" mr) as [n|]; [|now split].
    destruct (PyStr.nonempty n) eqn:E; [|now split].
    split; [now apply set_keys_NoDup|].
    apply UsageMore.set_Forall_item; [|exact F].
    cbn. intros ->. discriminate E. }
  split; constructor.
Qed.

Lemma finalized_tech_names (um : UsageMap) (pre : string) (ds : Element) :
  map f_tech_name (map (finalize_field um pre) (discover_fields ds))
  = map fst (discover_fields ds).
Proof.
  rewrite map_map. apply map_ext_in. intros [k v] Hin.
  pose proof (FieldFacts.discover_fields_keyed ds) as K.
  unfold keyed in K. rewrite Forall_forall in K. exact (K _ Hin).
Qed.

(** X16.  Within a data source of the result the fields have pairwise
    distinct, non-empty technical names: one record per name. *)
Theorem one_record_per_tech_name (root : Element) :
  Forall (fun d =>
            NoDup (map f_tech_name (ds_fields d)) /\
            Forall (fun f => f_tech_name f <> "") (ds_fields d))
         (datasources (extract root)).
Proof.
  apply extract_datasources_Forall. intros um ds cap _ _ _ _.
  cbn [build_ds_info ds_fields].
  destruct (discover_fields_keys ds) as [N F]. split.
  - now rewrite finalized_tech_names.
  - apply Forall_forall. intros f Hf.
    assert (In (f_tech_name f)
               (map f_tech_name
                    (map (finalize_field um (or_str (ET.get ds "name") ""))
                         (discover_fields ds)))) as I by now apply in_map.
    rewrite finalized_tech_names in I.
    apply in_map_iff in I as (item & E & Hin).
    rewrite Forall_forall in F. rewrite <- E. exact (F _ Hin).
Qed.

Lemma enrich_field_caption (col : Element) (f : Field) (c : string) :
  ET.get col "caption" = Some c -> PyStr.nonempty c = true ->
  f_name (enrich_field col f) = c.
Proof.
  intros C N. unfold enrich_field. rewrite C, N.
  (destruct (ET.get col "role") as [r|]; [destruct (PyStr.nonempty r)|]);
  (destruct (ET.get col "datatype") as [t|]; [destruct (PyStr.nonempty t)|]);
  destruct (ET.find_child "calculation" col); reflexivity.
Qed.

(** The record a data source ends with for a name that exactly one
    column definition carries. *)
Lemma single_column_record (ds col : Element) (name_attr : string) :
  PyStr.nonempty name_attr = true ->
  filter (named name_attr) (ET.findall_desc "column" ds) = [col] ->
  exists before,
    Dict.lookup name_attr (discover_fields ds)
    = Some (enrich_field col before).
Proof.
  intros Hn Hcols.
  destruct (FieldFacts.filter_singleton _ _ _ Hcols)
    as (l1 & l2 & E & F1 & F2 & Pc).
  assert (ET.get col "name" = Some name_attr) as Hname.
  { unfold named, opt_eqb in Pc. destruct (ET.get col "name") as [m|];
      [|discriminate]. apply String.eqb_eq in Pc. now subst. }
  unfold discover_fields. cbv zeta. rewrite E, fold_left_app. cbn [fold_left].
  rewrite (FieldFacts.add_columns_others _ _ _ F2).
  unfold add_column at 1. rewrite Hname, Hn.
  eexists. apply lookup_set_same.
Qed.

(** X17.  The caption of the one column definition that names a field
    is the display name of the field, whatever the metadata records
    say. *)
Theorem caption_overrides_name (usage_map : UsageMap) (ds col : Element)
  (caption name_attr col_caption : string) :
  PyStr.nonempty name_attr = true ->
  filter (named name_attr) (ET.findall_desc "column" ds) = [col] ->
  ET.get col "caption" = Some col_caption ->
  PyStr.nonempty col_caption = true ->
  exists f,
    In f (ds_fields (build_ds_info usage_map ds caption)) /\
    f_tech_name f = name_attr /\
    f_name f = col_caption.
Proof.
  intros Hn Hcols Hc Hcn.
  destruct (single_column_record ds col name_attr Hn Hcols) as [before L].
  exists (finalize_field usage_map (or_str (ET.get ds "name") "")
                         (name_attr, enrich_field col before)).
  split; [|split].
  - cbn [build_ds_info ds_fields]. apply in_map. now apply lookup_In.
  - cbn [finalize_field f_tech_name].
    exact (FieldFacts.keyed_lookup _ _ _ (FieldFacts.discover_fields_keyed ds) L).
  - cbn [finalize_field f_name]. now apply enrich_field_caption.
Qed.

(** A metadata record leaves the records of the other names alone. *)
Lemma add_metadata_record_other (name : string) (d : Dict.t Field)
  (mr : Element) :
  describes name mr = false ->
  Dict.lookup name (add_metadata_record d mr) = Dict.lookup name d.
Proof.
  unfold describes, add_metadata_record, opt_eqb. intros N.
  destruct (ET.findtext "local-name" mr) as [m|]; [|reflexivity].
  destruct (PyStr.nonempty m); [|reflexivity].
  apply lookup_set_other. apply String.eqb_neq. exact N.
Qed.

Lemma add_metadata_records_others (name : string) (mrs : list Element)
  (d : Dict.t Field) :
  Forall (fun mr => describes name mr = false) mrs ->
  Dict.lookup name (fold_left add_metadata_record mrs d) = Dict.lookup name d.
Proof.
  intros F. revert d. induction F as [|mr mrs N F IH]; intros d; cbn.
  - reflexivity.
  - now rewrite IH, add_metadata_record_other.
Qed.

(** X18.  A field that exactly one metadata record describes and no
    column definition names keeps what the record says: the remote name
    (or else the local name without its outer brackets) as display
    name, the local type (or else nothing) as datatype, and an empty
    role and formula. *)
Theorem metadata_only_field (usage_map : UsageMap) (ds mr : Element)
  (caption local_name : string) :
  PyStr.nonempty local_name = true ->
  filter (describes local_name) (metadata_records ds) = [mr] ->
  filter (named local_name) (ET.findall_desc "column" ds) = [] ->
  exists f,
    In f (ds_fields (build_ds_info usage_map ds caption)) /\
    f_tech_name f = local_name /\
    f_name f = or_str (ET.findtext "remote-name" mr)
                      (PyStr.strip "[]" local_name) /\
    f_datatype f = or_str (ET.findtext "local-type" mr) "" /\
    f_role f = "" /\
    f_formula f = "".
Proof.
  intros Hn Hmr Hcols.
  destruct (FieldFacts.filter_singleton _ _ _ Hmr)
    as (l1 & l2 & E & F1 & F2 & Pm).
  assert (ET.findtext "local-name" mr = Some local_name) as Hname.
  { unfold describes, opt_eqb in Pm.
    destruct (ET.findtext "local-name" mr) as [m|]; [|discriminate].
    apply String.eqb_eq in Pm. now subst. }
  assert (Forall (fun c => named local_name c = false)
                 (ET.findall_desc "column" ds)) as Fc.
  { clear - Hcols. induction (ET.findall_desc "column" ds) as [|c l IH];
      [constructor|].
    cbn in Hcols. destruct (named local_name c) eqn:N; [discriminate|].
    constructor; auto. }
  set (rec := {| f_tech_name := local_name;
                 f_name := or_str (ET.findtext "remote-name" mr)
                                  (PyStr.strip "[]" local_name);
                 f_role := "";
                 f_datatype := or_str (ET.findtext "local-type" mr) "";
                 f_formula := "";
                 f_usage := "" |}).
  assert (Dict.lookup local_name (discover_fields ds) = Some rec) as L.
  { unfold discover_fields. cbv zeta.
    rewrite (FieldFacts.add_columns_others _ _ _ Fc).
    rewrite E, fold_left_app. cbn [fold_left].
    rewrite (add_metadata_records_others _ _ _ F2).
    unfold add_metadata_record at 1. rewrite Hname, Hn.
    apply lookup_set_same. }
  exists (finalize_field usage_map (or_str (ET.get ds "name") "")
                         (local_name, rec)).
  split; [|repeat split].
  cbn [build_ds_info ds_fields]. apply in_map. now apply lookup_In.
Qed.

(** *** Parameters *)

Lemma scan_datasource_parameters (um : UsageMap) (data : Data) (ds : Element) :
  parameters (scan_datasource um data ds)
  = parameters data ++ (if is_parameters ds then parameter_names ds else []).
Proof.
  unfold scan_datasource. cbv zeta.
  destruct (is_parameters ds).
  - cbn [parameters]. apply DatasourceFacts.add_parameters_app.
  - rewrite app_nil_r.
    destruct (py_or _ _) as [cap|]; [|reflexivity].
    destruct (PyStr.nonempty cap); [|reflexivity].
    now destruct (_ && _).
Qed.

(** X19.  The parameters of the result are the column display names of
    the parameter data sources, in document order; no other data source
    adds one. *)
Theorem parameters_listed (root : Element) :
  parameters (extract root)
  = flat_map parameter_names
             (filter is_parameters (ET.findall_desc "datasource" root)).
Proof.
  unfold extract. destruct (scan_worksheets root) as [names um].
  set (data := {| datasources := []; worksheets := names;
                  dashboards := scan_dashboards root; parameters := [] |}).
  change (flat_map parameter_names
            (filter is_parameters (ET.findall_desc "datasource" root)))
    with (parameters data ++
          flat_map parameter_names
            (filter is_parameters (ET.findall_desc "datasource" root))).
  generalize data. clear data.
  induction (ET.findall_desc "datasource" root) as [|ds l IH]; intros data.
  - cbn. now rewrite app_nil_r.
  - cbn [fold_left filter]. rewrite IH, scan_datasource_parameters.
    destruct (is_parameters ds); cbn [flat_map];
      now rewrite <- ?app_assoc, ?app_nil_r.
Qed.

End Tables.

Lemma caption_overrides_name_witness :
  exists f,
    In f (ds_fields (build_ds_info (tables := ascii_tables) []
                                   Samples.region_datasource "Orders")) /\
    f_tech_name f = "[Sales]" /\
    f_name f = "Sales Amount".
Proof.
  apply (caption_overrides_name (tables := ascii_tables) []
           Samples.region_datasource
           Samples.sales_column "Orders" "[Sales]" "Sales Amount");
    reflexivity.
Defined.

Lemma metadata_only_field_witness :
  exists f,
    In f (ds_fields (build_ds_info (tables := ascii_tables) []
                                   Samples.region_datasource "Orders")) /\
    f_tech_name f = "[Region]" /\
    f_name f = "region" /\
    f_datatype f = "string" /\
    f_role f = "" /\
    f_formula f = "".
Proof.
  apply (metadata_only_field (tables := ascii_tables) []
           Samples.region_datasource
           Samples.region_record "Orders" "[Region]");
    reflexivity.
Defined.

End CatalogMore.

(* ================================================================== *)
(** * From the worksheets to the usage of a field *)
(* ================================================================== *)

Module FlowMore.
Import DictFacts.

(** A loop reaches what one of its iterations establishes and the
    others keep. *)
Lemma fold_left_reaches {A B : Type} (Q : A -> Prop) (f : A -> B -> A)
  (l : list B) (x : B) (a : A) :
  In x l -> (forall a, Q (f a x)) -> (forall a b, Q a -> Q (f a b)) ->
  Q (fold_left f l a).
Proof.
  intros I Hx Hk. destruct (in_split _ _ I) as (l1 & l2 & ->).
  rewrite fold_left_app. cbn [fold_left].
  apply fold_left_invariant; [exact Hk | apply Hx].
Qed.

Section Worksheet.

Variables (root ws : Element) (ws_name : string).
Hypothesis ws_in : In ws (ET.findall_desc "worksheet" root).
Hypothesis ws_named : ET.get ws "name" = Some ws_name.
Hypothesis ws_name_nonempty : PyStr.nonempty ws_name = true.

(** What the scan of [ws] registers is in the usage map of the
    document. *)
Lemma worksheet_reaches (field role : string) :
  (forall um, registered (worksheet_usage ws ws_name um) field ws_name role) ->
  registered (build_usage_map root) field ws_name role.
Proof.
  intros H. unfold build_usage_map, scan_worksheets.
  apply (fold_left_reaches (fun st => registered (snd st) field ws_name role)
                           scan_worksheet _ ws); [exact ws_in | |].
  - intros st. unfold scan_worksheet.
    rewrite ws_named, ws_name_nonempty. cbn [snd]. apply H.
  - intros st w K. apply UsageFacts.scan_worksheet_preserves; [|exact K].
    intros; now apply UsageFacts.register_keeps.
Qed.

Lemma shelf_reaches (shelf : Element) (txt token role : string) (um : UsageMap) :
  ET.text shelf = Some txt ->
  In token (PyStr.split "/" txt) ->
  PyStr.nonempty (PyStr.strip "()" token) = true ->
  registered (register_shelf (Some shelf) ws_name role um)
             (normalize_field_ref (PyStr.strip "()" token)) ws_name role.
Proof.
  intros T I N. unfold register_shelf. rewrite T.
  destruct txt as [|c r].
  - cbn in I. destruct I as [<-|[]]. discriminate N.
  - cbn [PyStr.nonempty].
    apply (fold_left_reaches
             (fun um => registered um _ ws_name role) _ _ token); [exact I | |].
    + intros um0. unfold register_token. cbv zeta. rewrite N.
      apply UsageFacts.register_registers.
    + intros um0 tok K. apply UsageFacts.register_token_preserves; [|exact K].
      intros; now apply UsageFacts.register_keeps.
Qed.

End Worksheet.

(** X20.  Every token of the rows shelf that is not empty once its outer
    parentheses are stripped is registered, normalized, with role
    ["Row"] under the worksheet; the same holds, with role ["Column"],
    for the text of the first [column] element below the worksheet,
    which the parser reads as the columns shelf. *)
Theorem shelf_tokens_registered (root ws shelf : Element)
  (ws_name txt token role : string) :
  In ws (ET.findall_desc "worksheet" root) ->
  ET.get ws "name" = Some ws_name ->
  PyStr.nonempty ws_name = true ->
  (ET.find_desc "rows" ws = Some shelf /\ role = "Row") \/
  (ET.find_desc "column" ws = Some shelf /\ role = "Column") ->
  ET.text shelf = Some txt ->
  In token (PyStr.split "/" txt) ->
  PyStr.nonempty (PyStr.strip "()" token) = true ->
  registered (build_usage_map root)
             (normalize_field_ref (PyStr.strip "()" token)) ws_name role.
Proof.
  intros I Hn Hne Hshelf T Itok N.
  apply (worksheet_reaches root ws ws_name I Hn Hne). intros um.
  pose proof (fun um f ws r => UsageFacts.register_keeps um f ws r
                                 (normalize_field_ref (PyStr.strip "()" token))
                                 ws_name role) as Keep.
  unfold worksheet_usage. cbv zeta.
  apply fold_left_invariant;
    [intros; apply UsageFacts.register_slice_preserves; auto|].
  apply fold_left_invariant;
    [intros; apply UsageFacts.register_filter_preserves; auto|].
  destruct Hshelf as [[-> ->]|[-> ->]].
  - apply UsageFacts.register_shelf_preserves; [auto|].
    now apply (shelf_reaches ws_name shelf txt).
  - now apply (shelf_reaches ws_name shelf txt).
Qed.

Lemma shelf_tokens_registered_witness :
  registered (build_usage_map Samples.filtered_workbook)
             (normalize_field_ref (PyStr.strip "()" "[orders].[sum:Sales:qk]"))
             "Sheet2" "Row".
Proof.
  apply (shelf_tokens_registered Samples.filtered_workbook
           Samples.filtered_worksheet
           (mkElement "rows" [] (Some "[orders].[sum:Sales:qk]") [])
           "Sheet2" "[orders].[sum:Sales:qk]" "[orders].[sum:Sales:qk]" "Row").
  - simpl. left. reflexivity.
  - reflexivity.
  - reflexivity.
  - left. split; reflexivity.
  - reflexivity.
  - simpl. left. reflexivity.
  - reflexivity.
Defined.

(** X21.  Every filter of a named worksheet with a non-empty [column]
    attribute, and every [column] child of a [slices] element with a
    non-empty text, is registered, normalized, with role ["Filter"]
    under the worksheet. *)
Theorem filters_registered (root ws node : Element) (ws_name ref : string) :
  In ws (ET.findall_desc "worksheet" root) ->
  ET.get ws "name" = Some ws_name ->
  PyStr.nonempty ws_name = true ->
  (In node (ET.findall_desc "filter" ws) /\ ET.get node "column" = Some ref) \/
  (In node (ET.findall_desc_child "slices" "column" ws) /\
   ET.text node = Some ref) ->
  PyStr.nonempty ref = true ->
  registered (build_usage_map root) (normalize_field_ref ref) ws_name "Filter".
Proof.
  intros I Hn Hne Hnode N.
  apply (worksheet_reaches root ws ws_name I Hn Hne). intros um.
  pose proof (fun um f ws r => UsageFacts.register_keeps um f ws r
                                 (normalize_field_ref ref) ws_name "Filter")
    as Keep.
  unfold worksheet_usage. cbv zeta.
  destruct Hnode as [[In1 A]|[In2 T]].
  - apply fold_left_invariant;
      [intros; apply UsageFacts.register_slice_preserves; auto|].
    apply (fold_left_reaches (fun um => registered um _ _ _) _ _ node);
      [exact In1 | |].
    + intros um0. unfold register_filter. rewrite A, N.
      apply UsageFacts.register_registers.
    + intros; apply UsageFacts.register_filter_preserves; auto.
  - apply (fold_left_reaches (fun um => registered um _ _ _) _ _ node);
      [exact In2 | |].
    + intros um0. unfold register_slice. rewrite T, N.
      apply UsageFacts.register_registers.
    + intros; apply UsageFacts.register_slice_preserves; auto.
Qed.

Lemma filters_registered_witness :
  registered (build_usage_map Samples.filtered_workbook)
             (normalize_field_ref "[orders].[none:Segment:nk]")
             "Sheet2" "Filter".
Proof.
  apply (filters_registered Samples.filtered_workbook
           Samples.filtered_worksheet Samples.slice_node
           "Sheet2" "[orders].[none:Segment:nk]").
  - simpl. left. reflexivity.
  - reflexivity.
  - reflexivity.
  - right. split; [simpl; left; reflexivity | reflexivity].
  - reflexivity.
Defined.

(** *** The resolver *)

Lemma add_In_l (s : PySet.t) (x r : string) : In r s -> In r (PySet.add s x).
Proof.
  intros H. unfold PySet.add. destruct (PySet.mem x s); [exact H|].
  apply in_or_app. now left.
Qed.

Lemma add_In_new (s : PySet.t) (x : string) : In x (PySet.add s x).
Proof.
  unfold PySet.add, PySet.mem. destruct (existsb (String.eqb x) s) eqn:E.
  - apply existsb_exists in E as (y & Hy & Exy).
    apply String.eqb_eq in Exy. now subst.
  - apply in_or_app. right. now left.
Qed.

Lemma update_In_l (s : PySet.t) (xs : list string) (r : string) :
  In r s -> In r (PySet.update s xs).
Proof.
  intros H. unfold PySet.update. apply fold_left_invariant; [|exact H].
  intros; now apply add_In_l.
Qed.

Lemma update_In_r (s : PySet.t) (xs : list string) (r : string) :
  In r xs -> In r (PySet.update s xs).
Proof.
  intros H. unfold PySet.update.
  apply (fold_left_reaches (fun s => In r s) _ _ r); [exact H | |].
  - intros; apply add_In_new.
  - intros; now apply add_In_l.
Qed.

Lemma merge_roles_keeps (info : Dict.t PySet.t) (item : string * list string)
  (ws r : string) :
  collected info ws r -> collected (merge_roles info item) ws r.
Proof.
  intros (roles & L & I). destruct item as [ws' roles']. unfold merge_roles, collected.
  destruct (string_dec ws' ws) as [->|N].
  - eexists. split; [apply lookup_set_same|].
    apply update_In_l. unfold Dict.get_default.
    unfold PySet.t, Dict.t in *. now rewrite L.
  - exists roles. split; [|exact I]. now rewrite (lookup_set_other _ _ _ _ N).
Qed.

Lemma merge_roles_adds (info : Dict.t PySet.t) (ws r : string)
  (roles : list string) :
  In r roles -> collected (merge_roles info (ws, roles)) ws r.
Proof.
  intros I. unfold merge_roles, collected.
  eexists. split; [apply lookup_set_same|]. now apply update_In_r.
Qed.

Lemma merge_candidate_keeps_collected (um : UsageMap) (info : Dict.t PySet.t)
  (tn ws r : string) :
  collected info ws r -> collected (merge_candidate um info tn) ws r.
Proof.
  intros C. unfold merge_candidate.
  destruct (Dict.lookup tn um) as [per_ws|]; [|exact C].
  apply fold_left_invariant; [|exact C].
  intros; now apply merge_roles_keeps.
Qed.

Lemma merge_candidate_adds (um : UsageMap) (info : Dict.t PySet.t)
  (tn ws r : string) :
  registered um tn ws r -> collected (merge_candidate um info tn) ws r.
Proof.
  intros (per_ws & roles & L1 & L2 & I). unfold merge_candidate.
  unfold UsageMap, Dict.t in *. rewrite L1.
  apply lookup_In in L2.
  apply (fold_left_reaches (fun info => collected info ws r) _ _ (ws, roles));
    [exact L2 | |].
  - intros; now apply merge_roles_adds.
  - intros; now apply merge_roles_keeps.
Qed.

Lemma join_In (sep part : string) (parts : list string) :
  In part parts ->
  exists a b, PyStr.join sep parts = (a ++ part ++ b)%string.
Proof.
  unfold PyStr.join. induction parts as [|p [|q rest] IH]; intros I.
  - destruct I.
  - destruct I as [<-|[]]. exists "", "". cbn.
    now rewrite PyStrFacts.app_nil_r.
  - change (String.concat sep (p :: q :: rest))
      with (p ++ sep ++ String.concat sep (q :: rest))%string.
    destruct I as [<-|I].
    + exists "", (sep ++ String.concat sep (q :: rest))%string. reflexivity.
    + destruct (IH I) as (a & b & E). rewrite E.
      exists (p ++ sep ++ a)%string, b.
      now rewrite !PyStrFacts.app_assoc.
Qed.

Lemma rendered_mentions (info : Dict.t PySet.t) (ws r : string) :
  collected info ws r ->
  PyStr.contains (ws ++ " (") (render_usage info) = true.
Proof.
  intros (roles & L & _). apply lookup_In in L.
  assert ((ws ++ " (")%string <> "") as Ne by (destruct ws; discriminate).
  assert (In (usage_part (ws, roles)) (map usage_part info)) as I
      by now apply in_map.
  destruct (join_In ", " _ _ I) as (a & b & E).
  unfold render_usage. cbv zeta.
  destruct (map usage_part info) as [|p ps] eqn:M; [destruct I|].
  rewrite E. apply PyStrFacts.contains_app_r.
  apply PyStrFacts.contains_app_l; [exact Ne|].
  unfold usage_part.
  replace (ws ++ " (" ++ PyStr.join "/" (sorted roles) ++ ")")%string
    with ((ws ++ " (") ++ PyStr.join "/" (sorted roles) ++ ")")%string
    by now rewrite PyStrFacts.app_assoc.
  pose proof (PyStrFacts.prefix_app_self (ws ++ " (")
                (PyStr.join "/" (sorted roles) ++ ")")) as P.
  destruct ((ws ++ " (") ++ PyStr.join "/" (sorted roles) ++ ")")%string;
    cbn [PyStr.contains]; rewrite P; reflexivity.
Qed.

(** X22.  A field one of whose candidate names has a role under a
    worksheet in the usage map is reported as used in that worksheet:
    its usage string holds the entry that begins with the worksheet
    name and [" ("]. *)
Theorem used_field_reported (usage_map : UsageMap)
  (ds_tech_prefix tech_name candidate ws_name role : string) :
  In candidate (tech_names_to_check ds_tech_prefix tech_name) ->
  registered usage_map candidate ws_name role ->
  PyStr.contains (ws_name ++ " (")
                 (field_usage usage_map ds_tech_prefix tech_name) = true.
Proof.
  intros I R. unfold field_usage. apply (rendered_mentions _ _ role).
  unfold collect_usage.
  apply (fold_left_reaches (fun info => collected info ws_name role)
                           _ _ candidate); [exact I | |].
  - intros; now apply merge_candidate_adds.
  - intros; now apply merge_candidate_keeps_collected.
Qed.

Lemma used_field_reported_witness :
  PyStr.contains ("Sheet2" ++ " (")
    (field_usage (build_usage_map Samples.filtered_workbook)
                 "orders" "[Sales]") = true.
Proof.
  apply (used_field_reported (build_usage_map Samples.filtered_workbook)
           "orders" "[Sales]" "[orders].[Sales]" "Sheet2" "Row").
  - simpl. right. left. reflexivity.
  - exists [("Sheet2", ["Row"])], ["Row"].
    split; [reflexivity | split; [reflexivity | simpl; left; reflexivity]].
Defined.

End FlowMore.
